(** * aumai-alignment: the dataset registry and the evaluation runner

    A shallow embedding of [aumai_alignment/core.py] and of the three
    pydantic models of [aumai_alignment/models.py].

    Modelling conventions.
    - A Python [str] is a [string] whose characters are read as the code
      points 0..255; [lower] and [strip] follow [str.lower] and [str.strip]
      on that range.
    - A Python [float] is a [PyFloat.t]: a finite value, given by the
      rational it denotes (the two zeros are one value), an infinity or NaN.
      Comparisons are those of the floats; [+], [/], [round] and [sum] round
      to the nearest binary64 value, ties to even.  [sum] is the compensated
      summation of CPython 3.12 and later; [sum_plain] is the summation of
      the versions before, and [evaluate_with] takes the built-ins as an
      argument.  [float(n)] raises for an int with no finite nearest value.
      A float field that its model
      validates into a bounded range ([quality_score], [rating], [score])
      holds a finite value and is kept as a [Q].  A Python [int] is a [Z].
    - A raised exception is a value of [error]; a method that can raise
      returns a [result].  A method of a stateful object takes the state and
      returns the outcome together with the state it leaves behind.
    - [datetime.now] is an argument of [evaluate].
    - A dict whose iteration order reaches a caller ([_listings]) is an
      association list in insertion order; the other dicts are [gmap]s. *)

From Stdlib Require Import ZArith QArith Qround Qabs Qpower Lqa Lia Bool List.
From Stdlib Require Import Ascii String.
From Stdlib Require Import Sorting.Sorted Sorting.Permutation.
From stdpp Require Import base option gmap strings.

Import ListNotations.
Local Open Scope bool_scope.
Local Open Scope string_scope.

(** ** Exceptions *)

Inductive error : Type :=
  | DatasetNotFoundError (dataset_id : string)   (* core.py, a KeyError *)
  | ValidationError (field : string)             (* pydantic: a Field bound is violated *)
  | ReError                                      (* re.error *)
  | OverflowError.                               (* float(n) for an int too large *)

Inductive result (A : Type) : Type :=
  | Ok (a : A)
  | Err (e : error).
Arguments Ok {A} a.
Arguments Err {A} e.


(** ** Python strings *)

Module PyStr.

(** [str.isspace] on the code points below 256. *)
Definition isspace (c : ascii) : bool :=
  let n := N_of_ascii c in
  (((9 <=? n) && (n <=? 13)) || ((28 <=? n) && (n <=? 32))
   || (n =? 133) || (n =? 160))%N.

(** [str.lower] on one code point below 256: A-Z, and the Latin-1 capitals
    U+00C0..U+00DE except the multiplication sign U+00D7. *)
Definition lower_char (c : ascii) : ascii :=
  let n := N_of_ascii c in
  if (((65 <=? n) && (n <=? 90))
      || ((192 <=? n) && (n <=? 222) && negb (n =? 215)))%N
  then ascii_of_N (n + 32) else c.

Fixpoint lower (s : string) : string :=
  match s with
  | EmptyString => EmptyString
  | String c s' => String (lower_char c) (lower s')
  end.

Fixpoint lstrip (s : string) : string :=
  match s with
  | EmptyString => EmptyString
  | String c s' => if isspace c then lstrip s' else s
  end.

Fixpoint rstrip (s : string) : string :=
  match s with
  | EmptyString => EmptyString
  | String c s' =>
      match rstrip s' with
      | EmptyString => if isspace c then EmptyString else String c EmptyString
      | r => String c r
      end
  end.

(** [s.strip()] *)
Definition strip (s : string) : string := rstrip (lstrip s).

(** [sep.join(parts)] *)
Definition join (sep : string) (parts : list string) : string :=
  String.concat sep parts.

(** Truth value of a string: [if s:] *)
Definition truthy (s : string) : bool :=
  match s with EmptyString => false | _ => true end.

(** [needle in hay]: literal substring containment. *)
Fixpoint contains (needle hay : string) : bool :=
  String.prefix needle hay
  || match hay with
     | EmptyString => false
     | String _ hay' => contains needle hay'
     end.

(** The same, as a proposition. *)
Definition Substring (needle hay : string) : Prop :=
  exists pre post, hay = (pre ++ needle ++ post)%string.

End PyStr.

(** ** The fragment of Python's [re] that [search] relies on

    [re.escape] is modelled in full.  Of the pattern language the model
    keeps literals, backslash escapes of non-alphanumeric characters, the
    wildcard [.] and the postfix [*]; a pattern using any other
    metacharacter is outside the fragment and [compile] answers [None]. *)

Module Re.

Inductive atom : Type :=
  | Lit (c : ascii)
  | AnyChar.

Inductive item : Type :=
  | Once (a : atom)
  | Star (a : atom).

Definition pattern : Type := list item.

Definition code_in (n : N) (codes : list N) : bool :=
  existsb (N.eqb n) codes.

(** [re._special_chars_map]: the bytes of
    [b'()[]{}?*+-|^$\\.&~# \t\n\r\v\f']. *)
Definition special_codes : list N :=
  [40; 41; 91; 93; 123; 125; 63; 42; 43; 45; 124; 94; 36; 92; 46; 38;
   126; 35; 32; 9; 10; 13; 11; 12]%N.

Definition is_special (c : ascii) : bool :=
  code_in (N_of_ascii c) special_codes.

(** [re.escape(s)] *)
Fixpoint escape (s : string) : string :=
  match s with
  | EmptyString => EmptyString
  | String c s' =>
      if is_special c then String "\"%char (String c (escape s'))
      else String c (escape s')
  end.

Definition is_alnum (c : ascii) : bool :=
  let n := N_of_ascii c in
  (((48 <=? n) && (n <=? 57)) || ((65 <=? n) && (n <=? 90))
   || ((97 <=? n) && (n <=? 122)))%N.

(** Metacharacters of the pattern language other than [.], [*] and the
    backslash: ( ) [ ] { } ? + | ^ $ *)
Definition meta_codes : list N :=
  [40; 41; 91; 93; 123; 125; 63; 43; 124; 94; 36]%N.

Inductive token : Type :=
  | TAtom (a : atom)
  | TStar
  | TOther.

Definition classify (c : ascii) : token :=
  let n := N_of_ascii c in
  if (n =? 46)%N then TAtom AnyChar
  else if (n =? 42)%N then TStar
  else if code_in n meta_codes then TOther
  else TAtom (Lit c).

Fixpoint tokens (s : string) : list token :=
  match s with
  | EmptyString => []
  | String c s' =>
      if (N_of_ascii c =? 92)%N then
        match s' with
        | EmptyString => [TOther]
        | String e s'' =>
            (if is_alnum e then TOther else TAtom (Lit e)) :: tokens s''
        end
      else classify c :: tokens s'
  end.

Fixpoint assemble (ts : list token) : option pattern :=
  match ts with
  | [] => Some []
  | TAtom a :: ts' =>
      match ts' with
      | TStar :: ts'' => cons (Star a) <$> assemble ts''
      | _ => cons (Once a) <$> assemble ts'
      end
  | _ => None
  end.

(** [re.compile(p)], on the fragment. *)
Definition compile (p : string) : option pattern := assemble (tokens p).

Definition atom_matches (a : atom) (c : ascii) : bool :=
  match a with
  | Lit x => Ascii.eqb x c
  | AnyChar => negb (N_of_ascii c =? 10)%N
  end.

(** Does the pattern match a prefix of [s]? *)
Fixpoint match_here (p : pattern) (s : string) : bool :=
  match p with
  | [] => true
  | Once a :: p' =>
      match s with
      | EmptyString => false
      | String c s' => atom_matches a c && match_here p' s'
      end
  | Star a :: p' =>
      (fix star (t : string) : bool :=
         match_here p' t
         || match t with
            | EmptyString => false
            | String c t' => atom_matches a c && star t'
            end) s
  end.

(** Does the pattern match at some offset of [s]? *)
Fixpoint search_at (p : pattern) (s : string) : bool :=
  match_here p s
  || match s with
     | EmptyString => false
     | String _ s' => search_at p s'
     end.

(** Truth value of [re.search(p, s)]. *)
Definition search (p s : string) : result bool :=
  match compile p with
  | Some r => Ok (search_at r s)
  | None => Err ReError
  end.

(** The pattern that matches [s] character by character. *)
Fixpoint literal (s : string) : pattern :=
  match s with
  | EmptyString => []
  | String c s' => Once (Lit c) :: literal s'
  end.

End Re.

(** ** Python floats *)

Module PyFloat.

(** Comparisons of finite values, given as rationals. *)
Definition leb (x y : Q) : bool := Qle_bool x y.
Definition ltb (x y : Q) : bool := negb (Qle_bool y x).

Definition in_range (lo hi x : Q) : bool := leb lo x && leb x hi.

(** Round to the nearest integer, ties to the even one. *)
Definition round_half_even (x : Q) : Z :=
  let f := Qfloor x in
  match Qcompare (x - inject_Z f) (1 # 2) with
  | Lt => f
  | Gt => (f + 1)%Z
  | Eq => if Z.even f then f else (f + 1)%Z
  end.

(** The multiple of 1/10000 nearest to [x], ties to the even one. *)
Definition decimal4 (x : Q) : Q :=
  Qred (inject_Z (round_half_even (x * 10000)) / 10000).

(** A float. *)
Inductive t : Type :=
  | Finite (q : Q)
  | PosInf
  | NegInf
  | NaN.

Definition is_finite (x : t) : bool :=
  match x with Finite _ => true | _ => false end.

(** [x < y] *)
Definition flt (x y : t) : bool :=
  match x, y with
  | NaN, _ | _, NaN => false
  | Finite a, Finite b => ltb a b
  | Finite _, PosInf => true
  | Finite _, NegInf => false
  | PosInf, _ => false
  | NegInf, NegInf => false
  | NegInf, _ => true
  end.

(** [x <= y] *)
Definition fle (x y : t) : bool :=
  match x, y with
  | NaN, _ | _, NaN => false
  | Finite a, Finite b => leb a b
  | Finite _, PosInf => true
  | Finite _, NegInf => false
  | PosInf, PosInf => true
  | PosInf, _ => false
  | NegInf, _ => true
  end.

Definition neg (x : t) : t :=
  match x with
  | Finite a => Finite (Qred (- a)%Q)
  | PosInf => NegInf
  | NegInf => PosInf
  | NaN => NaN
  end.

(** [fabs(x)] *)
Definition abs (x : t) : t :=
  match x with
  | Finite a => Finite (Qabs a)
  | PosInf | NegInf => PosInf
  | NaN => NaN
  end.

(** The built-ins [min(a, b)] and [max(a, b)]: the first argument is kept
    unless the second is strictly smaller (larger). *)
Definition min2 (a b : t) : t := if flt b a then b else a.
Definition max2 (a b : t) : t := if flt a b then b else a.

(** [min(xs)] and [max(xs)] of a non-empty list given as head and tail. *)
Definition min_list (x : t) (xs : list t) : t := fold_left min2 xs x.
Definition max_list (x : t) (xs : list t) : t := fold_left max2 xs x.

(** *** Rounding to binary64 *)

(** 2^k for an integer k of either sign. *)
Definition pow2 (k : Z) : Q := Qpower 2%Q k.

(** floor(log2 q) for a positive q. *)
Definition ilog2 (q : Q) : Z :=
  let k := (Z.log2 (Qnum q) - Z.log2 (Zpos (Qden q)))%Z in
  if Qle_bool (pow2 k) q then k else (k - 1)%Z.

(** The binary64 value nearest to a positive rational, ties to even: 53
    bits of mantissa, the exponent of the last bit not below -1074, and
    infinity from 2^1024 on. *)
Definition round_pos (q : Q) : t :=
  let e := Z.max (ilog2 q - 52) (-1074) in
  let m := round_half_even (q / pow2 e)%Q in
  let v := (inject_Z m * pow2 e)%Q in
  if Qle_bool (pow2 1024) v then PosInf else Finite (Qred v).

Definition of_Q (q : Q) : t :=
  match Qcompare q 0 with
  | Eq => Finite 0
  | Gt => round_pos q
  | Lt => neg (round_pos (- q)%Q)
  end.

(** [float(n)] for an int: [OverflowError] when the nearest value is not
    finite. *)
Definition of_int (n : Z) : result t :=
  match of_Q (inject_Z n) with
  | Finite q => Ok (Finite q)
  | _ => Err OverflowError
  end.

(** [float(n)] for the length of a list, which is far below 2^53, where the
    conversion is exact. *)
Definition of_len (n : nat) : t := Finite (inject_Z (Z.of_nat n)).

(** [x + y] *)
Definition add (x y : t) : t :=
  match x, y with
  | NaN, _ | _, NaN => NaN
  | PosInf, NegInf | NegInf, PosInf => NaN
  | PosInf, _ | _, PosInf => PosInf
  | NegInf, _ | _, NegInf => NegInf
  | Finite a, Finite b => of_Q (a + b)%Q
  end.

(** [x - y] *)
Definition sub (x y : t) : t := add x (neg y).

(** [x / n] for a float [x] and the length [n] of a non-empty list.
    (For [n = 0] Python raises ZeroDivisionError; [evaluate] does not divide
    then.) *)
Definition div_len (x : t) (n : nat) : t :=
  match n with
  | O => NaN
  | S _ =>
      match x with
      | Finite a => of_Q (a / inject_Z (Z.of_nat n))%Q
      | other => other
      end
  end.

(** [round(x, 4)]: the float nearest to the decimal rounding of the exact
    value; infinities and NaN round to themselves. *)
Definition round4 (x : t) : t :=
  match x with
  | Finite a => of_Q (decimal4 a)
  | other => other
  end.

(** One step of the compensated summation of [sum]: the running total and
    the running compensation. *)
Definition sum_step (acc : t * t) (x : t) : t * t :=
  let f := fst acc in
  let c := snd acc in
  let total := add f x in
  (total,
   if fle (abs x) (abs f) then add c (add (sub f total) x)
   else add c (add (sub x total) f)).

(** [sum(xs)] for floats: the start value 0 plus the first item, then the
    compensated steps, the compensation added at the end when it is finite
    and not zero.  [sum([])] is the int 0. *)
Definition sum (xs : list t) : t :=
  match xs with
  | [] => Finite 0
  | x :: rest =>
      let acc := fold_left sum_step rest (add (Finite 0) x, Finite 0) in
      match snd acc with
      | Finite c => if Qeq_bool c 0 then fst acc else add (fst acc) (Finite c)
      | _ => fst acc
      end
  end.

(** [sum(xs)] before CPython 3.12: the items added from left to right,
    each addition rounded. *)
Definition sum_plain (xs : list t) : t := fold_left add xs (Finite 0).


End PyFloat.

(** ** models.py *)

Module AlignmentDataset.
Record t : Type := mk {
  dataset_id : string;
  name : string;
  description : string;
  category : string;
  size : Z;
  format : string;
  license : string;
  tags : list string;
  download_url : option string;
  quality_score : Q
}.

(** The Field bounds, size >= 0 and 0 <= quality_score <= 1, which the
    constructor checks before a dataset ever reaches the registry; the
    registry does not look at them again. *)
Definition valid (d : t) : Prop :=
  (0 <= size d)%Z /\ PyFloat.in_range 0 1 (quality_score d) = true.
End AlignmentDataset.

Module MarketplaceListing.
Record t : Type := mk {
  dataset : AlignmentDataset.t;
  downloads : Z;
  rating : Q;
  reviews : Z
}.

(** The Field bounds: downloads >= 0, 0 <= rating <= 5, reviews >= 0. *)
Definition violations (downloads : Z) (rating : Q) (reviews : Z) : list string :=
  (if (0 <=? downloads)%Z then [] else ["downloads"])
  ++ (if PyFloat.in_range 0 5 rating then [] else ["rating"])
  ++ (if (0 <=? reviews)%Z then [] else ["reviews"]).

(** [MarketplaceListing(dataset=.., downloads=.., rating=.., reviews=..)] *)
Definition create (dataset : AlignmentDataset.t)
    (downloads : Z) (rating : Q) (reviews : Z) : result t :=
  match violations downloads rating reviews with
  | [] => Ok (mk dataset downloads rating reviews)
  | fields => Err (ValidationError (PyStr.join "," fields))
  end.

(** [MarketplaceListing(dataset=..)]: the declared defaults. *)
Definition create_default (dataset : AlignmentDataset.t) : result t :=
  create dataset 0 0 0.

Definition valid (l : t) : Prop :=
  violations (downloads l) (rating l) (reviews l) = [].
End MarketplaceListing.

Module EvaluationResult.
Record t : Type := mk {
  dataset_id : string;
  model_name : string;
  score : Q;
  metrics : gmap string PyFloat.t;
  evaluated_at : Z
}.

(** [EvaluationResult(..)]: the Field bound 0 <= score <= 1, which neither
    an infinity nor NaN passes. *)
Definition create (dataset_id model_name : string) (score : PyFloat.t)
    (metrics : gmap string PyFloat.t) (evaluated_at : Z) : result t :=
  match score with
  | PyFloat.Finite q =>
      if PyFloat.in_range 0 1 q
      then Ok (mk dataset_id model_name q metrics evaluated_at)
      else Err (ValidationError "score")
  | _ => Err (ValidationError "score")
  end.
End EvaluationResult.

(** ** A dict whose iteration order is observed

    Python dicts iterate in insertion order, and assigning to a key that is
    present keeps its position. *)

Module OrderedDict.

Definition t (V : Type) : Type := list (string * V).

Definition empty {V} : t V := [].

(** [d.get(k)] *)
Fixpoint get {V} (k : string) (d : t V) : option V :=
  match d with
  | [] => None
  | (k', v) :: d' => if String.eqb k k' then Some v else get k d'
  end.

(** [d[k] = v] *)
Fixpoint set {V} (k : string) (v : V) (d : t V) : t V :=
  match d with
  | [] => [(k, v)]
  | (k', v') :: d' =>
      if String.eqb k k' then (k, v) :: d' else (k', v') :: set k v d'
  end.

Definition keys {V} (d : t V) : list string := map fst d.
Definition values {V} (d : t V) : list V := map snd d.

End OrderedDict.

(** ** core.py: DatasetRegistry *)

Module DatasetRegistry.

Record t : Type := mk {
  _datasets : gmap string AlignmentDataset.t;
  _listings : OrderedDict.t MarketplaceListing.t
}.

(** [DatasetRegistry()] *)
Definition init : t := mk ∅ OrderedDict.empty.

(** [register]: the dataset is stored first, then the listing is built;
    were the listing's constructor to raise, the first assignment would
    stay. *)
Definition register (self : t) (dataset : AlignmentDataset.t)
    : result unit * t :=
  let id := AlignmentDataset.dataset_id dataset in
  let datasets' := <[id := dataset]> (_datasets self) in
  let made :=
    match OrderedDict.get id (_listings self) with
    | None => MarketplaceListing.create_default dataset
    | Some existing =>
        MarketplaceListing.create dataset
          (MarketplaceListing.downloads existing)
          (MarketplaceListing.rating existing)
          (MarketplaceListing.reviews existing)
    end in
  match made with
  | Ok listing =>
      (Ok tt, mk datasets' (OrderedDict.set id listing (_listings self)))
  | Err e => (Err e, mk datasets' (_listings self))
  end.

(** [get] *)
Definition get (self : t) (dataset_id : string) : result AlignmentDataset.t :=
  match _datasets self !! dataset_id with
  | Some d => Ok d
  | None => Err (DatasetNotFoundError dataset_id)
  end.

(** [increment_downloads] *)
Definition increment_downloads (self : t) (dataset_id : string)
    : result unit * t :=
  match OrderedDict.get dataset_id (_listings self) with
  | Some listing =>
      match MarketplaceListing.create
              (MarketplaceListing.dataset listing)
              (MarketplaceListing.downloads listing + 1)
              (MarketplaceListing.rating listing)
              (MarketplaceListing.reviews listing) with
      | Ok listing' =>
          (Ok tt, mk (_datasets self)
                     (OrderedDict.set dataset_id listing' (_listings self)))
      | Err e => (Err e, self)
      end
  | None => (Ok tt, self)
  end.

(** The text a query is matched against:
    [" ".join([name, description] + tags).lower()] *)
Definition searchable (dataset : AlignmentDataset.t) : string :=
  PyStr.lower
    (PyStr.join " "
       ([AlignmentDataset.name dataset; AlignmentDataset.description dataset]
        ++ AlignmentDataset.tags dataset)).

(** One pass of the loop body of [search]: [Ok false] is [continue],
    [Ok true] reaches [results.append(listing)]. *)
Definition search_keep (query_lower : string) (category : option string)
    (min_quality : PyFloat.t) (listing : MarketplaceListing.t) : result bool :=
  let dataset := MarketplaceListing.dataset listing in
  if PyFloat.flt (PyFloat.Finite (AlignmentDataset.quality_score dataset))
       min_quality
  then Ok false
  else if match category with
          | Some c =>
              negb (String.eqb (PyStr.lower (AlignmentDataset.category dataset))
                               (PyStr.lower c))
          | None => false
          end
  then Ok false
  else if PyStr.truthy query_lower
  then Re.search (Re.escape query_lower) (searchable dataset)
  else Ok true.

Fixpoint search_loop (query_lower : string) (category : option string)
    (min_quality : PyFloat.t) (listings results : list MarketplaceListing.t)
    : result (list MarketplaceListing.t) :=
  match listings with
  | [] => Ok results
  | listing :: rest =>
      match search_keep query_lower category min_quality listing with
      | Err e => Err e
      | Ok true =>
          search_loop query_lower category min_quality rest (results ++ [listing])%list
      | Ok false =>
          search_loop query_lower category min_quality rest results
      end
  end.

Definition sort_key (listing : MarketplaceListing.t) : Q :=
  AlignmentDataset.quality_score (MarketplaceListing.dataset listing).

(** [results.sort(key=.., reverse=True)].  The sort is stable, also with
    [reverse=True], and on a total order of keys the stable sorted
    arrangement of a list is unique: insertion from the right, each
    element stopping before the first one whose key is not larger,
    computes it. *)
Fixpoint insert_desc (x : MarketplaceListing.t) (l : list MarketplaceListing.t)
    : list MarketplaceListing.t :=
  match l with
  | [] => [x]
  | y :: l' =>
      if PyFloat.leb (sort_key y) (sort_key x) then x :: l
      else y :: insert_desc x l'
  end.

Definition sort_desc (l : list MarketplaceListing.t) : list MarketplaceListing.t :=
  fold_right insert_desc [] l.

(** [search] *)
Definition search (self : t) (query : string) (category : option string)
    (min_quality : PyFloat.t) : result (list MarketplaceListing.t) :=
  let query_lower := PyStr.strip (PyStr.lower query) in
  match search_loop query_lower category min_quality
          (OrderedDict.values (_listings self)) [] with
  | Ok results => Ok (sort_desc results)
  | Err e => Err e
  end.

(** The calls a client can make, and the state each leaves behind. *)
Inductive call : Type :=
  | Register (dataset : AlignmentDataset.t)
  | IncrementDownloads (dataset_id : string)
  | Get (dataset_id : string)
  | Search (query : string) (category : option string) (min_quality : PyFloat.t).

Definition step (self : t) (c : call) : t :=
  match c with
  | Register d => snd (register self d)
  | IncrementDownloads i => snd (increment_downloads self i)
  | Get _ => self
  | Search _ _ _ => self
  end.

Inductive reachable : t -> Prop :=
  | reach_init : reachable init
  | reach_step (self : t) (c : call) :
      reachable self -> reachable (step self c).

End DatasetRegistry.

(** ** core.py: the scoring function and EvaluationRunner *)

(** A value of a model output record: [str | float | bool], and [int], which
    the annotation admits wherever it admits [float]. *)
Inductive value : Type :=
  | VStr (s : string)
  | VFloat (x : PyFloat.t)
  | VInt (n : Z)
  | VBool (b : bool).

Definition output : Type := gmap string value.

(** A scoring function returns a float or raises. *)
Definition ScoringFunction : Type := output -> result PyFloat.t.

(** [isinstance(raw, (int, float))] together with [float(raw)]: a [bool] is
    an [int], and the conversion of an int can raise. *)
Definition as_number (raw : value) : option (result PyFloat.t) :=
  match raw with
  | VStr _ => None
  | VFloat x => Some (Ok x)
  | VInt n => Some (PyFloat.of_int n)
  | VBool b => Some (PyFloat.of_int (if b then 1 else 0))
  end.

(** [_default_scorer]: [max(0.0, min(1.0, float(raw)))] for a numeric
    [raw = output.get("score", 0.5)], 0.5 for any other. *)
Definition _default_scorer (o : output) : result PyFloat.t :=
  let raw := default (VFloat (PyFloat.Finite (1 # 2))) (o !! "score") in
  match as_number raw with
  | Some (Ok x) =>
      Ok (PyFloat.max2 (PyFloat.Finite 0) (PyFloat.min2 (PyFloat.Finite 1) x))
  | Some (Err e) => Err e
  | None => Ok (PyFloat.Finite (1 # 2))
  end.

Module EvaluationRunner.

(** The runner keeps a reference to a registry it does not own; the
    registry's current state is an argument of [evaluate]. *)
Record t : Type := mk {
  _scoring_fn : ScoringFunction;
  _results : gmap string (list EvaluationResult.t)
}.

(** [EvaluationRunner(registry, scoring_fn=None)] *)
Definition init (scoring_fn : option ScoringFunction) : t :=
  mk (default _default_scorer scoring_fn) ∅.

Definition default_model_name : string := "unknown".

(** The float built-ins that [evaluate] calls: [sum], [/] by a length and
    [round(_, 4)]. *)
Record float_ops : Type := mk_ops {
  op_sum : list PyFloat.t -> PyFloat.t;
  op_div_len : PyFloat.t -> nat -> PyFloat.t;
  op_round4 : PyFloat.t -> PyFloat.t
}.

Definition cpython : float_ops :=
  mk_ops PyFloat.sum PyFloat.div_len PyFloat.round4.

(** The same with the [sum] of CPython 3.11 and earlier. *)
Definition cpython_3_11 : float_ops :=
  mk_ops PyFloat.sum_plain PyFloat.div_len PyFloat.round4.

(** [[self._scoring_fn(output) for output in model_outputs]]: in order, the
    first exception ends it. *)
Fixpoint score_all (f : ScoringFunction) (outs : list output)
    : result (list PyFloat.t) :=
  match outs with
  | [] => Ok []
  | o :: rest =>
      match f o with
      | Err e => Err e
      | Ok s =>
          match score_all f rest with
          | Err e => Err e
          | Ok ss => Ok (s :: ss)
          end
      end
  end.

(** [sum(scores) / len(scores) if scores else 0.0] *)
Definition aggregate (ops : float_ops) (scores : list PyFloat.t) : PyFloat.t :=
  match scores with
  | [] => PyFloat.Finite 0
  | _ => op_div_len ops (op_sum ops scores) (List.length scores)
  end.

(** The dict of the four metrics. *)
Definition metrics_of (aggregate_score : PyFloat.t) (scores : list PyFloat.t)
    : gmap string PyFloat.t :=
  <["sample_count" := PyFloat.of_len (List.length scores)]>
  (<["max_score" := match scores with
                    | [] => PyFloat.Finite 0
                    | x :: xs => PyFloat.max_list x xs
                    end]>
  (<["min_score" := match scores with
                    | [] => PyFloat.Finite 0
                    | x :: xs => PyFloat.min_list x xs
                    end]>
  (<["mean_score" := aggregate_score]> ∅))).

(** [evaluate], over the float built-ins. *)
Definition evaluate_with (ops : float_ops) (registry : DatasetRegistry.t)
    (self : t) (dataset_id : string) (model_outputs : list output)
    (model_name : string) (now : Z) : result EvaluationResult.t * t :=
  match DatasetRegistry.get registry dataset_id with
  | Err e => (Err e, self)
  | Ok _ =>
      match match model_outputs with
            | [] => Ok []
            | _ => score_all (_scoring_fn self) model_outputs
            end with
      | Err e => (Err e, self)
      | Ok scores =>
          let aggregate_score := aggregate ops scores in
          let metrics := metrics_of aggregate_score scores in
          match EvaluationResult.create dataset_id model_name
                  (op_round4 ops aggregate_score) metrics now with
          | Err e => (Err e, self)
          | Ok result =>
              (Ok result,
               mk (_scoring_fn self)
                  (<[dataset_id :=
                       (default [] (_results self !! dataset_id) ++ [result])%list]>
                     (_results self)))
          end
      end
  end.

(** [evaluate] *)
Definition evaluate : DatasetRegistry.t -> t -> string -> list output ->
    string -> Z -> result EvaluationResult.t * t :=
  evaluate_with cpython.

(** [get_results] *)
Definition get_results (self : t) (dataset_id : string)
    : list EvaluationResult.t :=
  default [] (_results self !! dataset_id).

End EvaluationRunner.

(** ** Vocabulary of the statements: search *)

Module SearchSpec.

Import DatasetRegistry.

(** The quality filter as the claims word it:
    [quality_score >= min_quality]. *)
Definition quality_ok (min_quality : PyFloat.t) (l : MarketplaceListing.t)
    : Prop :=
  PyFloat.fle min_quality (PyFloat.Finite (sort_key l)) = true.

(** The quality filter as the loop applies it: a listing goes on unless
    [quality_score < min_quality]. *)
Definition quality_kept (min_quality : PyFloat.t) (l : MarketplaceListing.t)
    : Prop :=
  PyFloat.flt (PyFloat.Finite (sort_key l)) min_quality = false.

(** The category filter: absent, or equal to the dataset's category up to
    letter case. *)
Definition category_ok (category : option string) (l : MarketplaceListing.t)
    : Prop :=
  forall c, category = Some c ->
    PyStr.lower (AlignmentDataset.category (MarketplaceListing.dataset l))
    = PyStr.lower c.

(** The text filter of the code: the trimmed, lowercased query is empty or
    occurs in the lowercased fields joined by single spaces. *)
Definition text_ok (query : string) (l : MarketplaceListing.t) : Prop :=
  let q := PyStr.lower (PyStr.strip query) in
  let d := MarketplaceListing.dataset l in
  q = EmptyString
  \/ PyStr.Substring q
       (PyStr.lower
          (PyStr.join " "
             (AlignmentDataset.name d :: AlignmentDataset.description d
              :: AlignmentDataset.tags d))).

(** The text filter read as a plain concatenation of the fields, nothing
    between them. *)
Definition text_ok_concat (query : string) (l : MarketplaceListing.t) : Prop :=
  let q := PyStr.lower (PyStr.strip query) in
  let d := MarketplaceListing.dataset l in
  q = EmptyString
  \/ PyStr.Substring q
       (PyStr.lower
          (PyStr.join ""
             (AlignmentDataset.name d :: AlignmentDataset.description d
              :: AlignmentDataset.tags d))).

(** The decision of the loop body, as a boolean. *)
Definition keepb (query_lower : string) (category : option string)
    (min_quality : PyFloat.t) (l : MarketplaceListing.t) : bool :=
  negb (PyFloat.flt (PyFloat.Finite (sort_key l)) min_quality)
  && match category with
     | Some c =>
         String.eqb
           (PyStr.lower (AlignmentDataset.category (MarketplaceListing.dataset l)))
           (PyStr.lower c)
     | None => true
     end
  && (negb (PyStr.truthy query_lower)
      || PyStr.contains query_lower (searchable (MarketplaceListing.dataset l))).

(** Non-increasing quality from left to right. *)
Definition desc (a b : MarketplaceListing.t) : Prop :=
  (sort_key b <= sort_key a)%Q.

End SearchSpec.

(** ** Vocabulary of the statements: the registry *)

Module RegistrySpec.

Import DatasetRegistry.

(** The two dicts have the same keys, and each listing wraps the dataset
    stored under its key. *)
Definition coherent (self : t) : Prop :=
  dom (_datasets self) = list_to_set (OrderedDict.keys (_listings self))
  /\ forall id l,
       OrderedDict.get id (_listings self) = Some l ->
       _datasets self !! id = Some (MarketplaceListing.dataset l).

(** Every stored listing satisfies the bounds its constructor checked. *)
Definition listings_valid (self : t) : Prop :=
  forall id l,
    OrderedDict.get id (_listings self) = Some l -> MarketplaceListing.valid l.

(** The state after a sequence of calls. *)
Definition run (self : t) (calls : list call) : t := fold_left step calls self.

(** The dataset of the last [register] call for [id] in a sequence. *)
Fixpoint last_registered (id : string) (calls : list call)
    : option AlignmentDataset.t :=
  match calls with
  | [] => None
  | c :: rest =>
      match last_registered id rest with
      | Some d => Some d
      | None =>
          match c with
          | Register d =>
              if String.eqb (AlignmentDataset.dataset_id d) id
              then Some d else None
          | _ => None
          end
      end
  end.

(** The invariant that carries the induction: lookups agree pointwise and
    listings are valid. *)
Definition pointwise (self : t) : Prop :=
  forall id,
    _datasets self !! id
    = MarketplaceListing.dataset <$> OrderedDict.get id (_listings self).

End RegistrySpec.

(** ** Vocabulary of the statements: the runner *)

Module EvaluationSpec.

(** Clamping into the unit interval, by ranges. *)
Definition clamp01 (x : Q) : Q :=
  if Qle_bool x 0 then 0%Q else if Qle_bool 1 x then 1%Q else x.

(** Clamping a float into the unit interval: NaN goes to 1, as
    [max(0.0, min(1.0, nan))] does. *)
Definition clamp_float (x : PyFloat.t) : Q :=
  match x with
  | PyFloat.Finite q => clamp01 q
  | PyFloat.PosInf => 1%Q
  | PyFloat.NegInf => 0%Q
  | PyFloat.NaN => 1%Q
  end.

(** The ints that [float] converts: those whose nearest binary64 value is
    finite, that is, those of absolute value below 2^1024 - 2^970. *)
Definition in_double_range (n : Z) : Prop :=
  (Z.abs n < 2 ^ 1024 - 2 ^ 970)%Z.

(** A float order as a proposition. *)
Definition float_le (x y : PyFloat.t) : Prop := PyFloat.fle x y = true.

(** Floats that are neither infinite nor NaN. *)
Definition all_finite (xs : list PyFloat.t) : Prop :=
  List.Forall (fun x => PyFloat.is_finite x = true) xs.

End EvaluationSpec.

(** A registry and a runner that reads it, driven by a client. *)
Module Session.

Record state : Type := mk {
  registry : DatasetRegistry.t;
  runner : EvaluationRunner.t
}.

Inductive call : Type :=
  | OnRegistry (c : DatasetRegistry.call)
  | Evaluate (dataset_id : string) (model_outputs : list output)
      (model_name : string) (now : Z).

(** One call: the state it leaves and what [evaluate] answered, if it was
    an [evaluate]. *)
Definition step (st : state) (c : call)
    : state * list (result EvaluationResult.t) :=
  match c with
  | OnRegistry c' =>
      (mk (DatasetRegistry.step (registry st) c') (runner st), [])
  | Evaluate id outs name now =>
      let ev := EvaluationRunner.evaluate (registry st) (runner st) id outs name now in
      (mk (registry st) (snd ev), [fst ev])
  end.

(** A sequence of calls: the final state and the answers of the
    [evaluate] calls in call order. *)
Fixpoint run (st : state) (calls : list call)
    : state * list (result EvaluationResult.t) :=
  match calls with
  | [] => (st, [])
  | c :: rest =>
      let s1 := step st c in
      let s2 := run (fst s1) rest in
      (fst s2, (snd s1 ++ snd s2)%list)
  end.

(** The results of the successful evaluations of [id], in order. *)
Definition successes (id : string) (log : list (result EvaluationResult.t))
    : list EvaluationResult.t :=
  flat_map
    (fun o =>
       match o with
       | Ok r => if String.eqb (EvaluationResult.dataset_id r) id then [r] else []
       | Err _ => []
       end)
    log.

End Session.

(** ** Concrete registries and runners used below *)

Module Examples.

Import DatasetRegistry.

(** The fixtures of tests/conftest.py. *)
Definition sample_dataset : AlignmentDataset.t :=
  AlignmentDataset.mk "ds-001" "Safety Prompts v1"
    "A dataset of safety-related prompts for alignment evaluation."
    "safety" 500 "jsonl" "CC-BY-4.0"
    ["safety"; "harmlessness"; "prompts"] None (85 # 100).

Definition high_quality_dataset : AlignmentDataset.t :=
  AlignmentDataset.mk "ds-002" "Helpfulness Eval"
    "Evaluations for helpfulness across diverse tasks."
    "helpfulness" 1000 "json" "MIT" ["helpfulness"; "eval"] None (95 # 100).

Definition registry : t :=
  step (step init (Register sample_dataset)) (Register high_quality_dataset).

(** The same registry after one download of ds-001. *)
Definition downloaded : t := step registry (IncrementDownloads "ds-001").

(** A new payload for ds-001. *)
Definition sample_dataset_v2 : AlignmentDataset.t :=
  AlignmentDataset.mk "ds-001" "Safety Prompts v2" "Revised prompts."
    "safety" 650 "jsonl" "CC-BY-4.0" ["safety"] None (90 # 100).

(** A dataset whose name ends in "ab" and whose description starts with
    "cd". *)
Definition ab_cd : AlignmentDataset.t :=
  AlignmentDataset.mk "ds-ab" "ab" "cd" "misc" 1 "json" "MIT" [] None 1.

Definition ab_cd_listing : MarketplaceListing.t :=
  MarketplaceListing.mk ab_cd 0 0 0.

Definition ab_cd_registry : t := step init (Register ab_cd).


Definition runner : EvaluationRunner.t := EvaluationRunner.init None.


Definition half_output : output := {[ "score" := VFloat (PyFloat.Finite (1 # 2)) ]}.

End Examples.

(** What the default scorer's runner answers on ds-001 for the batch of
    [{"score": 0.5}] and the empty record, at time 0. *)
Module MoreExamples.

Definition half_pair : list output := [Examples.half_output; ∅].

Definition half_pair_result : EvaluationResult.t :=
  EvaluationResult.mk "ds-001" "unknown" (1 # 2)
    (<["sample_count" := PyFloat.Finite 2]>
       (<["max_score" := PyFloat.Finite (1 # 2)]>
          (<["min_score" := PyFloat.Finite (1 # 2)]>
             (<["mean_score" := PyFloat.Finite (1 # 2)]> ∅))))
    0.

(** A registry whose listing of ds-001 has 3 downloads, rating 4.5 and 10
    reviews. *)
Definition rated_listing : MarketplaceListing.t :=
  MarketplaceListing.mk Examples.sample_dataset 3 (9 # 2) 10.

Definition rated_registry : DatasetRegistry.t :=
  DatasetRegistry.mk {[ "ds-001" := Examples.sample_dataset ]}
    [("ds-001", rated_listing)].

End MoreExamples.

(** ** api.py: the request handlers

    The four handler functions, on the module-level registry and runner.
    What FastAPI does around them (parsing the request, serialising the
    answer through [response_model]) is not modelled. *)

Module Api.

(** How a handler can fail: the [HTTPException] it raises itself, or an
    exception of the core that it does not catch. *)
Inductive failure : Type :=
  | HTTPException (status_code : Z) (detail : string)
  | Uncaught (e : error).

Inductive outcome (A : Type) : Type :=
  | Returned (a : A)
  | Failed (f : failure).
Arguments Returned {A} a.
Arguments Failed {A} f.

(** [_registry = DatasetRegistry()] and
    [_runner = EvaluationRunner(registry=_registry)] *)
Definition init : Session.state :=
  Session.mk DatasetRegistry.init (EvaluationRunner.init None).

(** [f"Dataset '{dataset_id}' not found"] *)
Definition not_found_detail (dataset_id : string) : string :=
  ("Dataset '" ++ dataset_id ++ "' not found")%string.

(** [list_datasets] *)
Definition list_datasets (st : Session.state) (query : string)
    (category : option string) (min_quality : PyFloat.t)
    : outcome (list MarketplaceListing.t) :=
  match DatasetRegistry.search (Session.registry st) query category min_quality with
  | Ok listings => Returned listings
  | Err e => Failed (Uncaught e)
  end.

(** [get_dataset] *)
Definition get_dataset (st : Session.state) (dataset_id : string)
    : outcome AlignmentDataset.t :=
  match DatasetRegistry.get (Session.registry st) dataset_id with
  | Ok d => Returned d
  | Err (DatasetNotFoundError _) =>
      Failed (HTTPException 404 (not_found_detail dataset_id))
  | Err e => Failed (Uncaught e)
  end.

(** [register_dataset] *)
Definition register_dataset (st : Session.state) (dataset : AlignmentDataset.t)
    : outcome AlignmentDataset.t * Session.state :=
  let reg := DatasetRegistry.register (Session.registry st) dataset in
  (match fst reg with
   | Ok _ => Returned dataset
   | Err e => Failed (Uncaught e)
   end,
   Session.mk (snd reg) (Session.runner st)).

(** [get_evaluations] *)
Definition get_evaluations (st : Session.state) (dataset_id : string)
    : outcome (list EvaluationResult.t) :=
  match DatasetRegistry.get (Session.registry st) dataset_id with
  | Ok _ => Returned (EvaluationRunner.get_results (Session.runner st) dataset_id)
  | Err (DatasetNotFoundError _) =>
      Failed (HTTPException 404 (not_found_detail dataset_id))
  | Err e => Failed (Uncaught e)
  end.

(** The requests a client can send, and the module state after each. *)
Inductive request : Type :=
  | ListDatasets (query : string) (category : option string)
      (min_quality : PyFloat.t)
  | GetDataset (dataset_id : string)
  | PostDataset (dataset : AlignmentDataset.t)
  | GetEvaluations (dataset_id : string).

Definition step (st : Session.state) (r : request) : Session.state :=
  match r with
  | PostDataset d => snd (register_dataset st d)
  | _ => st
  end.

Definition run (st : Session.state) (requests : list request) : Session.state :=
  fold_left step requests st.

(** The dataset of the last POST for [id] among the requests. *)
Fixpoint last_posted (id : string) (requests : list request)
    : option AlignmentDataset.t :=
  match requests with
  | [] => None
  | r :: rest =>
      match last_posted id rest with
      | Some d => Some d
      | None =>
          match r with
          | PostDataset d =>
              if String.eqb (AlignmentDataset.dataset_id d) id
              then Some d else None
          | _ => None
          end
      end
  end.

End Api.

(** ** Vocabulary of the statements: traces of registry calls *)

Module TraceSpec.

Import DatasetRegistry.

(** The download counter of [id] as the calls drive it: created at 0 by
    the first registration, kept by later ones, advanced by each
    [increment_downloads] once it exists. *)
Definition count_step (id : string) (n : option Z) (c : call) : option Z :=
  match c with
  | Register d =>
      if String.eqb (AlignmentDataset.dataset_id d) id
      then Some (default 0%Z n) else n
  | IncrementDownloads i =>
      if String.eqb i id then Z.succ <$> n else n
  | _ => n
  end.

Definition downloads_after (id : string) (n : option Z) (calls : list call)
    : option Z :=
  fold_left (count_step id) calls n.

(** The identifiers in listing order as the calls drive it: a new
    identifier goes to the end, a known one stays where it is. *)
Definition order_step (ids : list string) (c : call) : list string :=
  match c with
  | Register d =>
      if existsb (String.eqb (AlignmentDataset.dataset_id d)) ids
      then ids else (ids ++ [AlignmentDataset.dataset_id d])%list
  | _ => ids
  end.

Definition order_after (ids : list string) (calls : list call) : list string :=
  fold_left order_step calls ids.

(** The listings of quality [q] in a list, in the order of the list. *)
Definition ties (q : Q) (ls : list MarketplaceListing.t)
    : list MarketplaceListing.t :=
  List.filter (fun l => Qeq_bool (sort_key l) q) ls.

(** The quality and the category filter of [search], without the text
    filter. *)
Definition passes (category : option string) (min_quality : PyFloat.t)
    (l : MarketplaceListing.t) : bool :=
  negb (PyFloat.flt (PyFloat.Finite (sort_key l)) min_quality)
  && match category with
     | Some c =>
         String.eqb
           (PyStr.lower (AlignmentDataset.category (MarketplaceListing.dataset l)))
           (PyStr.lower c)
     | None => true
     end.

(** What holds of the listing stored under [id]: it wraps a dataset of that
    identifier, its rating and reviews are 0 and its downloads are not
    negative. *)
Definition listing_shape (id : string) (l : MarketplaceListing.t) : Prop :=
  AlignmentDataset.dataset_id (MarketplaceListing.dataset l) = id
  /\ MarketplaceListing.rating l = 0%Q
  /\ MarketplaceListing.reviews l = 0%Z
  /\ (0 <= MarketplaceListing.downloads l)%Z.

(** Two lists of listings that wrap the same datasets, position by
    position. *)
Definition same_datasets (l1 l2 : list MarketplaceListing.t) : Prop :=
  Forall2 (fun a b => MarketplaceListing.dataset a = MarketplaceListing.dataset b)
    l1 l2.

(** All characters are whitespace. *)
Fixpoint all_space (s : string) : bool :=
  match s with
  | EmptyString => true
  | String c s' => PyStr.isspace c && all_space s'
  end.

End TraceSpec.

(** * Properties *)

(** ** Strings *)

Section StringFacts.

Ltac by_code c := destruct c as [[] [] [] [] [] [] [] []]; vm_compute; congruence.

Lemma isspace_lower_char (c : ascii) :
  PyStr.isspace (PyStr.lower_char c) = PyStr.isspace c.
Proof. by_code c. Qed.

Lemma lstrip_lower (s : string) :
  PyStr.lstrip (PyStr.lower s) = PyStr.lower (PyStr.lstrip s).
Proof.
  induction s as [|c s IH]; simpl; [reflexivity|].
  rewrite isspace_lower_char. destruct (PyStr.isspace c); [exact IH|reflexivity].
Qed.

Lemma rstrip_lower (s : string) :
  PyStr.rstrip (PyStr.lower s) = PyStr.lower (PyStr.rstrip s).
Proof.
  induction s as [|c s IH]; simpl; [reflexivity|].
  rewrite IH, isspace_lower_char.
  destruct (PyStr.rstrip s); simpl; [|reflexivity].
  destruct (PyStr.isspace c); reflexivity.
Qed.

(** Lowercasing and trimming commute: the order in which [search] applies
    them to the query is immaterial. *)
Lemma strip_lower (s : string) :
  PyStr.strip (PyStr.lower s) = PyStr.lower (PyStr.strip s).
Proof. unfold PyStr.strip. rewrite lstrip_lower. apply rstrip_lower. Qed.

Lemma append_String (c : ascii) (s t : string) :
  (String c s ++ t)%string = String c (s ++ t)%string.
Proof. reflexivity. Qed.

Lemma prefix_app (n h : string) :
  String.prefix n h = true <-> exists post, h = (n ++ post)%string.
Proof.
  revert h. induction n as [|c n IH]; intros h.
  - split; [intros _; exists h; reflexivity|intros _; destruct h; reflexivity].
  - destruct h as [|d h]; simpl.
    + split; [discriminate|intros [post H]; discriminate].
    + destruct (Ascii.ascii_dec c d) as [->|Hne].
      * rewrite IH. split; intros [post H]; exists post;
          rewrite append_String in *; congruence.
      * split; [discriminate|].
        intros [post H]. rewrite append_String in H. congruence.
Qed.

Lemma contains_nil (n : string) :
  PyStr.contains n EmptyString = String.prefix n EmptyString.
Proof. unfold PyStr.contains. apply orb_false_r. Qed.

Lemma contains_cons (n : string) (c : ascii) (h : string) :
  PyStr.contains n (String c h)
  = String.prefix n (String c h) || PyStr.contains n h.
Proof. reflexivity. Qed.

Lemma contains_Substring (n h : string) :
  PyStr.contains n h = true <-> PyStr.Substring n h.
Proof.
  unfold PyStr.Substring. induction h as [|c h IH].
  - rewrite contains_nil, prefix_app. split.
    + intros [post H]. exists EmptyString, post. exact H.
    + intros [pre [post H]]. destruct pre; [|discriminate].
      exists post. exact H.
  - rewrite contains_cons, orb_true_iff, IH, prefix_app. split.
    + intros [[post H]|[pre [post H]]].
      * exists EmptyString, post. exact H.
      * exists (String c pre), post. rewrite append_String. congruence.
    + intros [pre [post H]]. destruct pre as [|d pre].
      * left. exists post. exact H.
      * right. exists pre, post. rewrite append_String in H. congruence.
Qed.

End StringFacts.

(** ** The escaped query is a literal pattern *)

Section EscapeFacts.

Ltac by_code c := destruct c as [[] [] [] [] [] [] [] []]; vm_compute; congruence.

Lemma special_not_alnum (c : ascii) :
  Re.is_special c = true -> Re.is_alnum c = false.
Proof. by_code c. Qed.

Lemma plain_not_backslash (c : ascii) :
  Re.is_special c = false -> (N_of_ascii c =? 92)%N = false.
Proof. by_code c. Qed.

Lemma plain_classify (c : ascii) :
  Re.is_special c = false -> Re.classify c = Re.TAtom (Re.Lit c).
Proof. by_code c. Qed.

Lemma tokens_escape (q : string) :
  Re.tokens (Re.escape q)
  = map (fun c => Re.TAtom (Re.Lit c)) (list_ascii_of_string q).
Proof.
  induction q as [|c q IH]; simpl; [reflexivity|].
  destruct (Re.is_special c) eqn:Hs; simpl.
  - rewrite (special_not_alnum c Hs), IH. reflexivity.
  - rewrite (plain_not_backslash c Hs), (plain_classify c Hs), IH. reflexivity.
Qed.

Lemma assemble_literals (q : string) :
  Re.assemble (map (fun c => Re.TAtom (Re.Lit c)) (list_ascii_of_string q))
  = Some (Re.literal q).
Proof.
  induction q as [|c q IH]; simpl; [reflexivity|].
  destruct q as [|d q]; simpl in *; [reflexivity|].
  rewrite IH. reflexivity.
Qed.

(** Whatever the query, compiling its escaped form succeeds and yields the
    pattern that spells the query out. *)
Lemma compile_escape (q : string) :
  Re.compile (Re.escape q) = Some (Re.literal q).
Proof. unfold Re.compile. rewrite tokens_escape. apply assemble_literals. Qed.

Lemma match_here_literal (q s : string) :
  Re.match_here (Re.literal q) s = String.prefix q s.
Proof.
  revert s. induction q as [|c q IH]; intros s.
  - destruct s; reflexivity.
  - destruct s as [|d s]; [reflexivity|].
    cbn [Re.literal Re.match_here Re.atom_matches String.prefix].
    rewrite IH. destruct (Ascii.ascii_dec c d) as [->|Hne].
    + rewrite Ascii.eqb_refl. reflexivity.
    + apply Ascii.eqb_neq in Hne. rewrite Hne. reflexivity.
Qed.

Lemma search_at_literal (q s : string) :
  Re.search_at (Re.literal q) s = PyStr.contains q s.
Proof.
  induction s as [|c s IH];
    cbn [Re.search_at PyStr.contains]; rewrite match_here_literal;
    [reflexivity|].
  rewrite IH. reflexivity.
Qed.

(** [re.search(re.escape(q), s)] never raises and is literal containment. *)
Lemma search_escape (q s : string) :
  Re.search (Re.escape q) s = Ok (PyStr.contains q s).
Proof. unfold Re.search. rewrite compile_escape, search_at_literal. reflexivity. Qed.

End EscapeFacts.

(** ** search: what the loop keeps, and the order of the answer *)

Section SearchFacts.

Import DatasetRegistry SearchSpec.

(** [x <= y] excludes [y < x], also at infinities and NaN. *)
Lemma fle_not_flt (x y : PyFloat.t) :
  PyFloat.fle x y = true -> PyFloat.flt y x = false.
Proof.
  destruct x as [a| | |], y as [b| | |]; cbn; try congruence.
  unfold PyFloat.leb, PyFloat.ltb. intros ->. reflexivity.
Qed.

(** Against a threshold that is not NaN, "not below" is "at least". *)
Lemma not_flt_fle (q : Q) (y : PyFloat.t) :
  y <> PyFloat.NaN ->
  PyFloat.flt (PyFloat.Finite q) y = false ->
  PyFloat.fle y (PyFloat.Finite q) = true.
Proof.
  destruct y as [b| | |]; cbn; try congruence.
  unfold PyFloat.leb, PyFloat.ltb. intros _ H.
  apply negb_false_iff in H. exact H.
Qed.

Lemma quality_ok_kept mq l : quality_ok mq l -> quality_kept mq l.
Proof. apply fle_not_flt. Qed.

Lemma quality_kept_ok mq l :
  mq <> PyFloat.NaN -> quality_kept mq l -> quality_ok mq l.
Proof. apply not_flt_fle. Qed.

Lemma search_keep_keepb ql c mq l : search_keep ql c mq l = Ok (keepb ql c mq l).
Proof.
  unfold search_keep, keepb, sort_key.
  destruct (PyFloat.flt _ mq); simpl; [reflexivity|].
  destruct c as [c|]; simpl.
  - destruct (String.eqb _ _); simpl; [|reflexivity].
    destruct (PyStr.truthy ql); simpl; [apply search_escape|reflexivity].
  - destruct (PyStr.truthy ql); simpl; [apply search_escape|reflexivity].
Qed.

Lemma search_loop_filter ql c mq ls acc :
  search_loop ql c mq ls acc = Ok (acc ++ List.filter (keepb ql c mq) ls)%list.
Proof.
  revert acc. induction ls as [|l ls IH]; intros acc; simpl.
  - rewrite app_nil_r. reflexivity.
  - rewrite search_keep_keepb. destruct (keepb ql c mq l).
    + rewrite IH, <- app_assoc. reflexivity.
    + apply IH.
Qed.

(** [search] never raises: it sorts what the three filters keep. *)
Lemma search_sorted_filter self query c mq :
  search self query c mq
  = Ok (sort_desc
          (List.filter (keepb (PyStr.strip (PyStr.lower query)) c mq)
             (OrderedDict.values (_listings self)))).
Proof. unfold search. rewrite search_loop_filter. reflexivity. Qed.

Lemma keepb_true query c mq l :
  keepb (PyStr.strip (PyStr.lower query)) c mq l = true
  <-> quality_kept mq l /\ category_ok c l /\ text_ok query l.
Proof.
  unfold keepb, quality_kept, category_ok, text_ok, searchable.
  rewrite strip_lower, !andb_true_iff, orb_true_iff, !negb_true_iff,
    contains_Substring.
  assert (Ht : forall s, PyStr.truthy s = false <-> s = EmptyString)
    by (intros [|? ?]; simpl; split; congruence).
  rewrite Ht. split.
  - intros [[Hq Hc] Hx]. repeat split; [exact Hq| |exact Hx].
    intros c' ->. apply String.eqb_eq. exact Hc.
  - intros (Hq & Hc & Hx). repeat split; [exact Hq| |exact Hx].
    destruct c as [c'|]; [|reflexivity].
    apply String.eqb_eq. apply Hc. reflexivity.
Qed.

Lemma insert_desc_perm x l : Permutation (insert_desc x l) (x :: l).
Proof.
  induction l as [|y l IH]; simpl; [reflexivity|].
  destruct (PyFloat.leb _ _); [reflexivity|].
  rewrite IH. apply perm_swap.
Qed.

Lemma sort_desc_perm l : Permutation (sort_desc l) l.
Proof.
  induction l as [|x l IH]; simpl; [reflexivity|].
  rewrite insert_desc_perm. apply perm_skip. exact IH.
Qed.

Lemma insert_desc_sorted x l :
  StronglySorted desc l -> StronglySorted desc (insert_desc x l).
Proof.
  induction 1 as [|y l Hs IH Hy]; simpl.
  - constructor; constructor.
  - unfold PyFloat.leb. destruct (Qle_bool (sort_key y) (sort_key x)) eqn:E.
    + apply Qle_bool_iff in E. constructor; [constructor; assumption|].
      constructor; [exact E|].
      eapply List.Forall_impl; [|exact Hy]. unfold desc. intros z Hz.
      eapply Qle_trans; eassumption.
    + assert (Hxy : (sort_key x <= sort_key y)%Q).
      { destruct (Qlt_le_dec (sort_key y) (sort_key x)) as [H|H]; [|exact H].
        apply Qlt_le_weak, Qle_bool_iff in H. congruence. }
      constructor; [exact IH|].
      eapply Permutation_Forall; [symmetry; apply insert_desc_perm|].
      constructor; assumption.
Qed.

Lemma sort_desc_sorted l : StronglySorted desc (sort_desc l).
Proof.
  induction l as [|x l IH]; simpl; [constructor|].
  apply insert_desc_sorted, IH.
Qed.

End SearchFacts.

(** ** The ordered dict *)

Section OrderedDictFacts.

Context {V : Type}.
Implicit Types (d : OrderedDict.t V) (k : string) (v : V).

Lemma od_get_set_eq k v d : OrderedDict.get k (OrderedDict.set k v d) = Some v.
Proof.
  induction d as [|[k' v'] d IH]; simpl.
  - rewrite String.eqb_refl. reflexivity.
  - destruct (String.eqb k k') eqn:E; simpl.
    + rewrite String.eqb_refl. reflexivity.
    + rewrite E. exact IH.
Qed.

Lemma od_get_set_ne k k' v d :
  k <> k' -> OrderedDict.get k' (OrderedDict.set k v d) = OrderedDict.get k' d.
Proof.
  intros Hne. induction d as [|[k0 v0] d IH]; simpl.
  - apply not_eq_sym, String.eqb_neq in Hne. rewrite Hne. reflexivity.
  - destruct (String.eqb k k0) eqn:E; simpl.
    + apply String.eqb_eq in E. subst k0.
      apply not_eq_sym, String.eqb_neq in Hne. rewrite Hne. reflexivity.
    + rewrite IH. reflexivity.
Qed.

Lemma od_keys_get k d :
  k ∈ (list_to_set (OrderedDict.keys d) : gset string)
  <-> is_Some (OrderedDict.get k d).
Proof.
  induction d as [|[k' v'] d IH]; simpl.
  - rewrite elem_of_empty. split; [tauto|]. intros [x Hx]. discriminate.
  - rewrite elem_of_union, elem_of_singleton, IH.
    destruct (String.eqb k k') eqn:E.
    + apply String.eqb_eq in E. split; [eauto|tauto].
    + apply String.eqb_neq in E. tauto.
Qed.

Lemma od_keys_set_mem k v d :
  is_Some (OrderedDict.get k d) ->
  OrderedDict.keys (OrderedDict.set k v d) = OrderedDict.keys d.
Proof.
  induction d as [|[k' v'] d IH]; simpl; intros [x Hx]; [discriminate|].
  destruct (String.eqb k k') eqn:E; simpl.
  - apply String.eqb_eq in E. congruence.
  - rewrite IH; eauto.
Qed.

Lemma od_keys_set_new k v d :
  OrderedDict.get k d = None ->
  OrderedDict.keys (OrderedDict.set k v d) = (OrderedDict.keys d ++ [k])%list.
Proof.
  induction d as [|[k' v'] d IH]; simpl; intros Hx; [reflexivity|].
  destruct (String.eqb k k') eqn:E; [discriminate|]. simpl.
  rewrite IH; auto.
Qed.

End OrderedDictFacts.

(** ** The registry's two dicts *)

Section RegistryFacts.

Import DatasetRegistry RegistrySpec.

Lemma violations_nil dl r rv :
  MarketplaceListing.violations dl r rv = []
  <-> (0 <= dl)%Z /\ PyFloat.in_range 0 5 r = true /\ (0 <= rv)%Z.
Proof.
  unfold MarketplaceListing.violations.
  destruct (Z.leb_spec 0 dl), (PyFloat.in_range 0 5 r), (Z.leb_spec 0 rv);
    simpl; split; try discriminate; try (intros (? & ? & ?)); auto;
    try lia; try discriminate.
Qed.

Lemma create_valid d dl r rv :
  MarketplaceListing.violations dl r rv = [] ->
  MarketplaceListing.create d dl r rv = Ok (MarketplaceListing.mk d dl r rv).
Proof. unfold MarketplaceListing.create. intros ->. reflexivity. Qed.

(** On a registry whose listings are valid, [register] builds its listing
    without raising. *)
Lemma register_valid self d :
  listings_valid self ->
  let id := AlignmentDataset.dataset_id d in
  register self d
  = (Ok tt,
     mk (<[id := d]> (_datasets self))
        (OrderedDict.set id
           (match OrderedDict.get id (_listings self) with
            | None => MarketplaceListing.mk d 0 0 0
            | Some e =>
                MarketplaceListing.mk d (MarketplaceListing.downloads e)
                  (MarketplaceListing.rating e) (MarketplaceListing.reviews e)
            end)
           (_listings self))).
Proof.
  intros Hv id. unfold register. fold id.
  destruct (OrderedDict.get id (_listings self)) as [e|] eqn:E.
  - rewrite create_valid; [reflexivity|]. exact (Hv id e E).
  - reflexivity.
Qed.

Lemma increment_valid self id :
  listings_valid self ->
  increment_downloads self id
  = (Ok tt,
     match OrderedDict.get id (_listings self) with
     | Some l =>
         mk (_datasets self)
            (OrderedDict.set id
               (MarketplaceListing.mk (MarketplaceListing.dataset l)
                  (MarketplaceListing.downloads l + 1)
                  (MarketplaceListing.rating l) (MarketplaceListing.reviews l))
               (_listings self))
     | None => self
     end).
Proof.
  intros Hv. unfold increment_downloads.
  destruct (OrderedDict.get id (_listings self)) as [l|] eqn:E; [|reflexivity].
  rewrite create_valid; [reflexivity|].
  specialize (Hv id l E). unfold MarketplaceListing.valid in Hv.
  apply violations_nil in Hv as (? & ? & ?). apply violations_nil.
  repeat split; auto; lia.
Qed.

Lemma pointwise_coherent self : pointwise self -> coherent self.
Proof.
  intros Hp. split.
  - apply set_eq. intros id.
    rewrite elem_of_dom, od_keys_get, Hp.
    destruct (OrderedDict.get id (_listings self)); simpl.
    + split; eauto.
    + split; intros [x Hx]; discriminate.
  - intros id l E. rewrite Hp, E. reflexivity.
Qed.

Lemma step_invariant self c :
  pointwise self /\ listings_valid self ->
  pointwise (step self c) /\ listings_valid (step self c).
Proof.
  intros [Hp Hv]. destruct c as [d|i|i|q c mq]; simpl; [| |auto|auto].
  - rewrite (register_valid self d Hv). simpl.
    set (id := AlignmentDataset.dataset_id d). split.
    + intros id'. simpl. destruct (decide (id = id')) as [<-|Hne].
      * rewrite lookup_insert_eq, od_get_set_eq.
        destruct (OrderedDict.get id (_listings self)); reflexivity.
      * rewrite lookup_insert_ne, od_get_set_ne by assumption. apply Hp.
    + intros id' l. simpl. destruct (decide (id = id')) as [<-|Hne].
      * rewrite od_get_set_eq. intros [= <-].
        destruct (OrderedDict.get id (_listings self)) as [e|] eqn:E.
        -- exact (Hv id e E).
        -- reflexivity.
      * rewrite od_get_set_ne by assumption. apply Hv.
  - rewrite (increment_valid self i Hv). simpl.
    destruct (OrderedDict.get i (_listings self)) as [l|] eqn:E; [|auto].
    split.
    + intros id'. simpl. destruct (decide (i = id')) as [<-|Hne].
      * rewrite od_get_set_eq, Hp, E. reflexivity.
      * rewrite od_get_set_ne by assumption. apply Hp.
    + intros id' l'. simpl. destruct (decide (i = id')) as [<-|Hne].
      * rewrite od_get_set_eq. intros [= <-].
        specialize (Hv i l E). unfold MarketplaceListing.valid in *. simpl.
        apply violations_nil in Hv as (? & ? & ?). apply violations_nil.
        repeat split; auto; lia.
      * rewrite od_get_set_ne by assumption. apply Hv.
Qed.

Lemma reachable_invariant self :
  reachable self -> pointwise self /\ listings_valid self.
Proof.
  induction 1 as [|self c _ IH].
  - split; intros id; simpl; [apply lookup_empty|discriminate].
  - apply step_invariant, IH.
Qed.

(** Calls that do not register [id] leave its dataset record alone. *)
Lemma register_datasets_eq self d :
  _datasets (snd (register self d))
  = <[AlignmentDataset.dataset_id d := d]> (_datasets self).
Proof.
  unfold register.
  destruct (OrderedDict.get _ (_listings self)) as [e|].
  - destruct (MarketplaceListing.create d _ _ _); reflexivity.
  - reflexivity.
Qed.

Lemma increment_datasets_eq self i :
  _datasets (snd (increment_downloads self i)) = _datasets self.
Proof.
  unfold increment_downloads.
  destruct (OrderedDict.get i (_listings self)); [|reflexivity].
  destruct (MarketplaceListing.create _ _ _ _); reflexivity.
Qed.

(** Calls that do not register [id] leave its dataset record alone. *)
Lemma run_datasets_other id calls self :
  last_registered id calls = None ->
  _datasets (run self calls) !! id = _datasets self !! id.
Proof.
  revert self. induction calls as [|c calls IH]; intros self Hc;
    [reflexivity|].
  cbn [last_registered] in Hc.
  destruct (last_registered id calls) as [d0|] eqn:El; [discriminate|].
  unfold run in *. cbn [fold_left]. rewrite IH by reflexivity.
  destruct c as [d|i|i|q c mq]; cbn [step]; try reflexivity.
  - destruct (String.eqb _ _) eqn:E; [discriminate|].
    apply String.eqb_neq in E.
    rewrite register_datasets_eq. apply lookup_insert_ne. exact E.
  - rewrite increment_datasets_eq. reflexivity.
Qed.

Lemma register_datasets self d :
  _datasets (snd (register self d)) !! AlignmentDataset.dataset_id d = Some d.
Proof. rewrite register_datasets_eq. apply lookup_insert_eq. Qed.

End RegistryFacts.

(** ** The runner *)

Section RunnerFacts.

Import EvaluationRunner EvaluationSpec.

(** The scores of a batch: the empty batch is only a shortcut. *)
Lemma scores_shortcut (f : ScoringFunction) (outs : list output) :
  match outs with [] => Ok [] | _ => score_all f outs end = score_all f outs.
Proof. destruct outs; reflexivity. Qed.

Lemma create_result id name s m now r :
  EvaluationResult.create id name s m now = Ok r ->
  exists q,
    s = PyFloat.Finite q
    /\ r = EvaluationResult.mk id name q m now
    /\ PyFloat.in_range 0 1 q = true.
Proof.
  unfold EvaluationResult.create. destruct s as [q| | |]; try discriminate.
  destruct (PyFloat.in_range 0 1 q) eqn:E; [|discriminate].
  intros [= <-]. eauto.
Qed.

(** [evaluate], step by step. *)
Lemma evaluate_with_unfold ops registry self id outs name now :
  evaluate_with ops registry self id outs name now
  = match DatasetRegistry.get registry id with
    | Err e => (Err e, self)
    | Ok _ =>
        match score_all (_scoring_fn self) outs with
        | Err e => (Err e, self)
        | Ok scores =>
            match EvaluationResult.create id name
                    (op_round4 ops (aggregate ops scores))
                    (metrics_of (aggregate ops scores) scores) now with
            | Err e => (Err e, self)
            | Ok result =>
                (Ok result,
                 mk (_scoring_fn self)
                    (<[id := (default [] (_results self !! id) ++ [result])%list]>
                       (_results self)))
            end
        end
    end.
Proof. unfold evaluate_with. rewrite scores_shortcut. reflexivity. Qed.

(** What a call returns carries the call's dataset id, model name and
    time, and the rounded aggregate of the scores as its score. *)
Lemma evaluate_with_fields ops registry self id outs name now r :
  fst (evaluate_with ops registry self id outs name now) = Ok r ->
  EvaluationResult.dataset_id r = id
  /\ EvaluationResult.model_name r = name
  /\ EvaluationResult.evaluated_at r = now
  /\ exists scores,
       score_all (_scoring_fn self) outs = Ok scores
       /\ PyFloat.Finite (EvaluationResult.score r)
          = op_round4 ops (aggregate ops scores)
       /\ EvaluationResult.metrics r = metrics_of (aggregate ops scores) scores.
Proof.
  rewrite evaluate_with_unfold.
  destruct (DatasetRegistry.get registry id); [|discriminate].
  destruct (score_all _ outs) as [scores|]; [|discriminate].
  destruct (EvaluationResult.create _ _ _ _ _) as [r'|] eqn:E; [|discriminate].
  cbn [fst]. intros [= <-]. apply create_result in E as (q & Hq & -> & _).
  cbn. repeat split. exists scores. rewrite Hq. auto.
Qed.

Lemma evaluate_fields registry self id outs name now r :
  fst (evaluate registry self id outs name now) = Ok r ->
  EvaluationResult.dataset_id r = id
  /\ EvaluationResult.model_name r = name
  /\ EvaluationResult.evaluated_at r = now.
Proof.
  intros H. apply evaluate_with_fields in H. tauto.
Qed.

(** One call extends the history of its dataset id by its own result
    when it succeeds, and changes no history otherwise. *)
Lemma evaluate_history registry self id outs name now id' :
  get_results (snd (evaluate registry self id outs name now)) id'
  = (get_results self id'
     ++ Session.successes id' [fst (evaluate registry self id outs name now)])%list.
Proof.
  unfold evaluate. rewrite evaluate_with_unfold.
  destruct (DatasetRegistry.get registry id);
    [|simpl; rewrite app_nil_r; reflexivity].
  destruct (score_all _ outs) as [scores|];
    [|simpl; rewrite app_nil_r; reflexivity].
  destruct (EvaluationResult.create _ _ _ _ _) as [r|] eqn:E;
    [|simpl; rewrite app_nil_r; reflexivity].
  apply create_result in E as (q & _ & -> & _).
  unfold get_results, Session.successes. simpl.
  destruct (String.eqb id id') eqn:Eid.
  - apply String.eqb_eq in Eid. subst id'. rewrite lookup_insert_eq.
    reflexivity.
  - apply String.eqb_neq in Eid. rewrite lookup_insert_ne by exact Eid.
    simpl. rewrite app_nil_r. reflexivity.
Qed.

Lemma successes_app id l1 l2 :
  Session.successes id (l1 ++ l2)
  = (Session.successes id l1 ++ Session.successes id l2)%list.
Proof. apply flat_map_app. Qed.

Lemma run_history calls st id :
  get_results (Session.runner (fst (Session.run st calls))) id
  = (get_results (Session.runner st) id
     ++ Session.successes id (snd (Session.run st calls)))%list.
Proof.
  revert st. induction calls as [|c calls IH]; intros st.
  - simpl. rewrite app_nil_r. reflexivity.
  - cbn [Session.run fst snd]. rewrite IH, successes_app, app_assoc.
    f_equal. destruct c as [c'|i outs name now]; cbn [Session.step fst snd Session.runner].
    + simpl. rewrite app_nil_r. reflexivity.
    + apply evaluate_history.
Qed.

End RunnerFacts.

(** ** Arithmetic of the aggregate *)

Section NumericFacts.

Import EvaluationSpec.
Local Open Scope Q_scope.

Lemma ltb_true (x y : Q) : PyFloat.ltb x y = true <-> x < y.
Proof.
  unfold PyFloat.ltb. rewrite negb_true_iff. split.
  - intros E. destruct (Qlt_le_dec x y) as [H|H]; [exact H|].
    apply Qle_bool_iff in H. congruence.
  - intros H. destruct (Qle_bool y x) eqn:E; [|reflexivity].
    apply Qle_bool_iff in E. lra.
Qed.

Lemma ltb_false (x y : Q) : PyFloat.ltb x y = false <-> y <= x.
Proof.
  unfold PyFloat.ltb. rewrite negb_false_iff. apply Qle_bool_iff.
Qed.

(** [max(0.0, min(1.0, x))] is clamping into the unit interval, for every
    float [x]. *)
Lemma max_min_clamp (x : PyFloat.t) :
  exists r,
    PyFloat.max2 (PyFloat.Finite 0) (PyFloat.min2 (PyFloat.Finite 1) x)
    = PyFloat.Finite r
    /\ r == clamp_float x.
Proof.
  destruct x as [q| | |];
    [|exists 1; split; reflexivity|exists 0; split; reflexivity
     |exists 1; split; reflexivity].
  unfold PyFloat.max2, PyFloat.min2, clamp_float, clamp01. cbn [PyFloat.flt].
  destruct (PyFloat.ltb q 1) eqn:E1; cbn [PyFloat.flt].
  - apply ltb_true in E1.
    destruct (PyFloat.ltb 0 q) eqn:E0.
    + apply ltb_true in E0. exists q. split; [reflexivity|].
      destruct (Qle_bool q 0) eqn:L0; [apply Qle_bool_iff in L0; lra|].
      destruct (Qle_bool 1 q) eqn:L1; [apply Qle_bool_iff in L1; lra|].
      reflexivity.
    + apply ltb_false in E0. apply Qle_bool_iff in E0. rewrite E0.
      exists 0. split; reflexivity.
  - apply ltb_false in E1.
    assert (E0 : PyFloat.ltb 0 1 = true) by reflexivity. rewrite E0.
    exists 1. split; [reflexivity|].
    destruct (Qle_bool q 0) eqn:L0; [apply Qle_bool_iff in L0; lra|].
    apply Qle_bool_iff in E1. rewrite E1. reflexivity.
Qed.

End NumericFacts.

(** ** The conversion of an int to a float *)

Section FloatFacts.

Import EvaluationSpec.
Local Open Scope Q_scope.

Lemma pow2_nonneg (k : Z) : (0 <= k)%Z -> PyFloat.pow2 k == inject_Z (2 ^ k).
Proof.
  intros H. unfold PyFloat.pow2. rewrite Zpower_Qpower by exact H. reflexivity.
Qed.

Lemma pow2_pos (k : Z) : 0 < PyFloat.pow2 k.
Proof. unfold PyFloat.pow2. apply Qpower_0_lt. reflexivity. Qed.

Lemma pow2_add (a b : Z) : PyFloat.pow2 (a + b) == PyFloat.pow2 a * PyFloat.pow2 b.
Proof. unfold PyFloat.pow2. apply Qpower_plus. discriminate. Qed.

Lemma floor_le_rhe (x : Q) : (Qfloor x <= PyFloat.round_half_even x)%Z.
Proof.
  unfold PyFloat.round_half_even.
  destruct (x - inject_Z (Qfloor x) ?= 1 # 2); [destruct (Z.even _)|..]; lia.
Qed.

Lemma rhe_le_floor1 (x : Q) : (PyFloat.round_half_even x <= Qfloor x + 1)%Z.
Proof.
  unfold PyFloat.round_half_even.
  destruct (x - inject_Z (Qfloor x) ?= 1 # 2); [destruct (Z.even _)|..]; lia.
Qed.

(** An integer below [x] is below its rounding. *)
Lemma rhe_ge_int (N : Z) (x : Q) :
  inject_Z N <= x -> (N <= PyFloat.round_half_even x)%Z.
Proof.
  intros H. pose proof (floor_le_rhe x).
  assert (N <= Qfloor x)%Z; [|lia].
  rewrite <- (Qfloor_Z N). apply Qfloor_resp_le, H.
Qed.

(** An integer above [x - 1/2] is above its rounding. *)
Lemma rhe_le_int (N : Z) (x : Q) :
  x < inject_Z N + (1 # 2) -> (PyFloat.round_half_even x <= N)%Z.
Proof.
  intros H. pose proof (rhe_le_floor1 x) as H1.
  assert (Hf : (Qfloor x <= N)%Z).
  { assert (Qfloor x < N + 1)%Z; [|lia].
    rewrite Zlt_Qlt, inject_Z_plus. change (inject_Z 1) with 1.
    pose proof (Qfloor_le x) as Hx.
    set (f := inject_Z (Qfloor x)) in *. set (n := inject_Z N) in *. lra. }
  destruct (Z.eq_dec (Qfloor x) N) as [E|E]; [|lia].
  unfold PyFloat.round_half_even. rewrite E.
  assert (Hc : (x - inject_Z N ?= 1 # 2) = Lt).
  { rewrite <- Qlt_alt. set (n := inject_Z N) in *. lra. }
  rewrite Hc. lia.
Qed.

(** At or above an odd integer and a half, the rounding is above. *)
Lemma rhe_ge_half_odd (N : Z) (x : Q) :
  Z.even N = false ->
  inject_Z N + (1 # 2) <= x -> (N + 1 <= PyFloat.round_half_even x)%Z.
Proof.
  intros Hodd H. pose proof (floor_le_rhe x) as H1.
  assert (Hf : (N <= Qfloor x)%Z).
  { rewrite <- (Qfloor_Z N). apply Qfloor_resp_le.
    set (n := inject_Z N) in *. lra. }
  destruct (Z.eq_dec (Qfloor x) N) as [E|E]; [|lia].
  unfold PyFloat.round_half_even. rewrite E, Hodd.
  destruct (x - inject_Z N ?= 1 # 2) eqn:Hc; try lia.
  rewrite <- Qlt_alt in Hc. set (n := inject_Z N) in *. lra.
Qed.

Lemma pow2_split (a b : Z) : PyFloat.pow2 b == PyFloat.pow2 a * PyFloat.pow2 (b - a).
Proof. rewrite <- pow2_add. replace (a + (b - a))%Z with b by lia. reflexivity. Qed.

Lemma ilog2_int (n : Z) : (0 < n)%Z -> PyFloat.ilog2 (inject_Z n) = Z.log2 n.
Proof.
  intros Hn. unfold PyFloat.ilog2, inject_Z. cbv zeta. cbn [Qnum Qden].
  change (Z.log2 (Zpos 1)) with 0%Z. rewrite Z.sub_0_r.
  assert (H : Qle_bool (PyFloat.pow2 (Z.log2 n)) (n # 1) = true).
  { apply Qle_bool_iff. rewrite pow2_nonneg by apply Z.log2_nonneg.
    change (n # 1) with (inject_Z n). rewrite <- Zle_Qle. apply Z.log2_spec, Hn. }
  rewrite H. reflexivity.
Qed.

Lemma double_range_split :
  (inject_Z (2 ^ 53 - 1) + (1 # 2)) * inject_Z (2 ^ 971)
  == inject_Z (2 ^ 1024 - 2 ^ 970).
Proof. vm_compute. reflexivity. Qed.

(** The float nearest to a positive int: finite below 2^1024 - 2^970,
    infinite from there on. *)
Lemma round_pos_int (n : Z) :
  (0 < n)%Z ->
  ((n < 2 ^ 1024 - 2 ^ 970)%Z ->
   exists r, PyFloat.round_pos (inject_Z n) = PyFloat.Finite r /\ 1 <= r)
  /\ ((2 ^ 1024 - 2 ^ 970 <= n)%Z ->
      PyFloat.round_pos (inject_Z n) = PyFloat.PosInf).
Proof.
  intros Hn. unfold PyFloat.round_pos. rewrite (ilog2_int n Hn).
  destruct (Z.log2_spec n Hn) as [Hlo Hhi].
  pose proof (Z.log2_nonneg n) as HL.
  set (L := Z.log2 n) in *.
  rewrite Z.max_l by lia.
  set (P := PyFloat.pow2 (L - 52)).
  assert (HP : 0 < P) by apply pow2_pos.
  assert (HPL : inject_Z (2 ^ 52) * P == inject_Z (2 ^ L)).
  { unfold P. rewrite <- !pow2_nonneg by lia. symmetry. apply pow2_split. }
  assert (HPL1 : inject_Z (2 ^ 53) * P == inject_Z (2 ^ (Z.succ L))).
  { rewrite Z.pow_succ_r by exact HL. rewrite inject_Z_mult, <- HPL.
    change (inject_Z (2 ^ 53)) with (inject_Z 2 * inject_Z (2 ^ 52)). ring. }
  rewrite Zle_Qle in Hlo. rewrite Zlt_Qlt in Hhi.
  set (x := inject_Z n / P).
  assert (Hm_lo : (2 ^ 52 <= PyFloat.round_half_even x)%Z).
  { apply rhe_ge_int. apply Qle_shift_div_l; [exact HP|]. rewrite HPL. exact Hlo. }
  assert (Hm_hi : (PyFloat.round_half_even x <= 2 ^ 53)%Z).
  { apply rhe_le_int. apply Qlt_le_trans with (inject_Z (2 ^ 53)).
    - apply Qlt_shift_div_r; [exact HP|]. rewrite HPL1. exact Hhi.
    - set (c := inject_Z (2 ^ 53)). lra. }
  set (m := PyFloat.round_half_even x) in *.
  assert (Hv_lo : inject_Z (2 ^ L) <= inject_Z m * P).
  { rewrite <- HPL. apply Qmult_le_compat_r; [|apply Qlt_le_weak, HP].
    rewrite <- Zle_Qle. exact Hm_lo. }
  assert (Hv_hi : inject_Z m * P <= inject_Z (2 ^ (Z.succ L))).
  { rewrite <- HPL1. apply Qmult_le_compat_r; [|apply Qlt_le_weak, HP].
    rewrite <- Zle_Qle. exact Hm_hi. }
  assert (H1024 : PyFloat.pow2 1024 == inject_Z (2 ^ 1024))
    by (apply pow2_nonneg; lia).
  assert (H971 : L = 1023%Z -> P == inject_Z (2 ^ 971)).
  { intros E. unfold P. rewrite E. apply pow2_nonneg. lia. }
  split; intros Hr.
  - assert (HL' : (L < 1024)%Z).
    { apply Z.log2_lt_pow2; [exact Hn|]. lia. }
    assert (Hnov : Qle_bool (PyFloat.pow2 1024) (inject_Z m * P) = false).
    { destruct (Qle_bool _ _) eqn:E; [|reflexivity]. exfalso.
      apply Qle_bool_iff in E. rewrite H1024 in E.
      destruct (Z.eq_dec L 1023%Z) as [EL|NL].
      - assert (Hm : (m <= 2 ^ 53 - 1)%Z).
        { apply rhe_le_int. apply Qlt_shift_div_r; [exact HP|].
          rewrite (H971 EL), double_range_split. rewrite <- Zlt_Qlt. exact Hr. }
        assert (Hv : inject_Z m * P <= inject_Z (2 ^ 53 - 1) * inject_Z (2 ^ 971)).
        { rewrite (H971 EL). apply Qmult_le_compat_r.
          - rewrite <- Zle_Qle. exact Hm.
          - rewrite <- (Zle_Qle 0). lia. }
        rewrite <- inject_Z_mult in Hv.
        pose proof (Qle_trans _ _ _ E Hv) as Hc. rewrite <- Zle_Qle in Hc.
        revert Hc. vm_compute. intros Hc. apply Hc. reflexivity.
      - pose proof (Qle_trans _ _ _ E Hv_hi) as Hc. rewrite <- Zle_Qle in Hc.
        apply Z.pow_le_mono_r_iff in Hc; lia. }
    rewrite Hnov. eexists. split; [reflexivity|].
    rewrite Qred_correct. eapply Qle_trans; [|exact Hv_lo].
    rewrite <- (Zle_Qle 1). lia.
  - assert (HL' : (1023 <= L)%Z).
    { apply Z.log2_le_pow2; [exact Hn|]. lia. }
    assert (Hov : Qle_bool (PyFloat.pow2 1024) (inject_Z m * P) = true).
    { apply Qle_bool_iff. rewrite H1024.
      destruct (Z.eq_dec L 1023%Z) as [EL|NL].
      - assert (Hm : (2 ^ 53 - 1 + 1 <= m)%Z).
        { apply rhe_ge_half_odd; [vm_compute; reflexivity|].
          apply Qle_shift_div_l; [exact HP|].
          rewrite (H971 EL), double_range_split. rewrite <- Zle_Qle. exact Hr. }
        apply Qle_trans with (inject_Z (2 ^ 53) * inject_Z (2 ^ 971)).
        + rewrite <- inject_Z_mult, <- Zle_Qle. vm_compute. discriminate.
        + rewrite (H971 EL). apply Qmult_le_compat_r.
          * rewrite <- Zle_Qle. lia.
          * rewrite <- (Zle_Qle 0). lia.
      - eapply Qle_trans; [|exact Hv_lo]. rewrite <- Zle_Qle.
        apply Z.pow_le_mono_r; lia. }
    rewrite Hov. reflexivity.
Qed.


Lemma clamp01_ge1 (r : Q) : 1 <= r -> clamp01 r = 1.
Proof.
  intros H. unfold clamp01.
  destruct (Qle_bool r 0) eqn:E0.
  - apply Qle_bool_iff in E0. lra.
  - apply Qle_bool_iff in H. rewrite H. reflexivity.
Qed.

Lemma clamp01_le0 (r : Q) : r <= 0 -> clamp01 r = 0.
Proof. intros H. unfold clamp01. apply Qle_bool_iff in H. rewrite H. reflexivity. Qed.

(** [float(n)] for an int in the range of the finite floats. *)
Lemma of_int_in_range (n : Z) :
  in_double_range n ->
  exists r,
    PyFloat.of_int n = Ok (PyFloat.Finite r)
    /\ clamp01 r = clamp01 (inject_Z n).
Proof.
  unfold in_double_range, PyFloat.of_int. intros H. destruct n as [|p|p].
  - exists 0. split; reflexivity.
  - change (PyFloat.of_Q (inject_Z (Z.pos p)))
      with (PyFloat.round_pos (inject_Z (Z.pos p))).
    destruct (round_pos_int (Z.pos p) eq_refl) as [Hfin _].
    destruct (Hfin H) as (r & -> & Hr). exists r. split; [reflexivity|].
    rewrite (clamp01_ge1 r Hr). symmetry. apply clamp01_ge1.
    rewrite <- (Zle_Qle 1). lia.
  - change (PyFloat.of_Q (inject_Z (Z.neg p)))
      with (PyFloat.neg (PyFloat.round_pos (inject_Z (Z.pos p)))).
    destruct (round_pos_int (Z.pos p) eq_refl) as [Hfin _].
    destruct (Hfin H) as (r & -> & Hr). cbn [PyFloat.neg].
    exists (Qred (- r)). split; [reflexivity|].
    rewrite clamp01_le0 by (rewrite Qred_correct; lra).
    symmetry. apply clamp01_le0. rewrite <- (Zle_Qle _ 0). lia.
Qed.

(** [float(n)] raises for every other int. *)
Lemma of_int_overflow (n : Z) :
  ~ in_double_range n -> PyFloat.of_int n = Err OverflowError.
Proof.
  unfold in_double_range, PyFloat.of_int. intros H. destruct n as [|p|p].
  - exfalso. apply H. reflexivity.
  - change (PyFloat.of_Q (inject_Z (Z.pos p)))
      with (PyFloat.round_pos (inject_Z (Z.pos p))).
    destruct (round_pos_int (Z.pos p) eq_refl) as [_ Hinf].
    rewrite Hinf; [reflexivity|]. change (Z.abs (Z.pos p)) with (Z.pos p) in H. lia.
  - change (PyFloat.of_Q (inject_Z (Z.neg p)))
      with (PyFloat.neg (PyFloat.round_pos (inject_Z (Z.pos p)))).
    destruct (round_pos_int (Z.pos p) eq_refl) as [_ Hinf].
    rewrite Hinf; [reflexivity|]. change (Z.abs (Z.neg p)) with (Z.pos p) in H. lia.
Qed.

End FloatFacts.

(** * The claims *)

Section Claims.

Import DatasetRegistry RegistrySpec SearchSpec EvaluationSpec.

(** C1.  When no dataset is registered under [id], [evaluate] raises the
  [DatasetNotFoundError] that the registry's [get] raises for [id], and
  the runner is left exactly as it was: no history changes. *)
Theorem evaluate_unregistered registry self id outs name now :
_datasets registry !! id = None ->
get registry id = Err (DatasetNotFoundError id)
/\ EvaluationRunner.evaluate registry self id outs name now
   = (Err (DatasetNotFoundError id), self)
/\ forall id',
     EvaluationRunner.get_results
       (snd (EvaluationRunner.evaluate registry self id outs name now)) id'
     = EvaluationRunner.get_results self id'.
Proof.
intros H. unfold EvaluationRunner.evaluate.
rewrite evaluate_with_unfold. unfold get. rewrite H. auto.
Qed.

Lemma evaluate_unregistered_witness :
_datasets Examples.registry !! "nonexistent" = None
/\ get Examples.registry "nonexistent" = Err (DatasetNotFoundError "nonexistent")
/\ EvaluationRunner.evaluate Examples.registry Examples.runner "nonexistent"
     [Examples.half_output] "unknown" 0
   = (Err (DatasetNotFoundError "nonexistent"), Examples.runner)
/\ forall id',
     EvaluationRunner.get_results
       (snd (EvaluationRunner.evaluate Examples.registry Examples.runner
               "nonexistent" [Examples.half_output] "unknown" 0)) id'
     = EvaluationRunner.get_results Examples.runner id'.
Proof.
split; [vm_compute; reflexivity|].
apply evaluate_unregistered. vm_compute. reflexivity.
Defined.

(** C2.  In every registry whose stored listings satisfy the bounds of
    their model, as every listing built by its constructor does, [register]
    returns normally.  When the dataset's identifier had no listing, the new
    listing has downloads 0, rating 0 and reviews 0; when it had one, the new
    listing wraps the new dataset and carries the old downloads, rating and
    reviews, whatever they are.  The listings of other identifiers are
    untouched. *)
Theorem register_listing self d :
  listings_valid self ->
  exists self',
    register self d = (Ok tt, self')
    /\ (OrderedDict.get (AlignmentDataset.dataset_id d) (_listings self) = None ->
        OrderedDict.get (AlignmentDataset.dataset_id d) (_listings self')
        = Some (MarketplaceListing.mk d 0 0 0))
    /\ (forall e,
          OrderedDict.get (AlignmentDataset.dataset_id d) (_listings self) = Some e ->
          OrderedDict.get (AlignmentDataset.dataset_id d) (_listings self')
          = Some (MarketplaceListing.mk d (MarketplaceListing.downloads e)
                    (MarketplaceListing.rating e) (MarketplaceListing.reviews e)))
    /\ (forall id',
          AlignmentDataset.dataset_id d <> id' ->
          OrderedDict.get id' (_listings self') = OrderedDict.get id' (_listings self)).
Proof.
  intros Hv.
  eexists. split; [apply (register_valid self d Hv)|]. cbn [_listings].
  repeat split.
  - intros E. rewrite od_get_set_eq, E. reflexivity.
  - intros e E. rewrite od_get_set_eq, E. reflexivity.
  - intros id' Hne. apply od_get_set_ne. exact Hne.
Qed.

Lemma register_listing_witness :
  listings_valid MoreExamples.rated_registry
  /\ exists self',
       register MoreExamples.rated_registry Examples.sample_dataset_v2
       = (Ok tt, self')
       /\ (OrderedDict.get "ds-001" (_listings MoreExamples.rated_registry) = None ->
           OrderedDict.get "ds-001" (_listings self')
           = Some (MarketplaceListing.mk Examples.sample_dataset_v2 0 0 0))
       /\ (forall e,
             OrderedDict.get "ds-001" (_listings MoreExamples.rated_registry)
             = Some e ->
             OrderedDict.get "ds-001" (_listings self')
             = Some (MarketplaceListing.mk Examples.sample_dataset_v2
                       (MarketplaceListing.downloads e)
                       (MarketplaceListing.rating e)
                       (MarketplaceListing.reviews e)))
       /\ (forall id',
             "ds-001" <> id' ->
             OrderedDict.get id' (_listings self')
             = OrderedDict.get id' (_listings MoreExamples.rated_registry)).
Proof.
  assert (Hv : listings_valid MoreExamples.rated_registry).
  { intros id l. cbn. destruct (String.eqb id "ds-001"); [|discriminate].
    intros [= <-]. vm_compute. reflexivity. }
  split; [exact Hv|].
  exact (register_listing MoreExamples.rated_registry Examples.sample_dataset_v2 Hv).
Defined.

(** A listing with 3 downloads, rating 4.5 and 10 reviews keeps all three
    when its identifier is registered again with a new payload. *)
Example register_keeps_rating_and_reviews :
  OrderedDict.get "ds-001"
    (_listings (snd (register MoreExamples.rated_registry Examples.sample_dataset_v2)))
  = Some (MarketplaceListing.mk Examples.sample_dataset_v2 3 (9 # 2) 10).
Proof. vm_compute. reflexivity. Qed.

(** C9.  After any sequence of calls, [get(id)] returns the dataset of the
    last [register] call made for [id] in that sequence: [register] then
    [get] is a round trip, and a later registration under the same
    identifier overrides an earlier one. *)
Theorem get_last_registered self calls id d :
  last_registered id calls = Some d ->
  get (run self calls) id = Ok d.
Proof.
  revert self. induction calls as [|c calls IH]; intros self H; [discriminate|].
  cbn [last_registered] in H. unfold run in *. cbn [fold_left].
  destruct (last_registered id calls) as [d0|] eqn:El.
  - apply IH. exact H.
  - destruct c as [d'|i|i|q c mq]; try discriminate.
    destruct (String.eqb _ _) eqn:E; [|discriminate].
    apply String.eqb_eq in E. injection H as ->. subst id.
    unfold get. fold (run (step self (Register d)) calls).
    rewrite (run_datasets_other _ calls _ El). cbn [step].
    rewrite register_datasets. reflexivity.
Qed.

Lemma get_last_registered_witness :
  last_registered "ds-001"
    [Register Examples.sample_dataset; IncrementDownloads "ds-001";
     Register Examples.high_quality_dataset; Register Examples.sample_dataset_v2;
     Search "safety" None (PyFloat.Finite 0)]
  = Some Examples.sample_dataset_v2
  /\ get (run init
            [Register Examples.sample_dataset; IncrementDownloads "ds-001";
             Register Examples.high_quality_dataset;
             Register Examples.sample_dataset_v2;
             Search "safety" None (PyFloat.Finite 0)])
       "ds-001"
     = Ok Examples.sample_dataset_v2.
Proof.
  split; [reflexivity|].
  apply get_last_registered. reflexivity.
Defined.

(** C10.  In every reachable registry the identifiers with a dataset record
    are the identifiers with a listing, and each listing wraps the dataset
    stored under its identifier.  The registry starts so, and whichever call
    comes next ([register], [increment_downloads], [get] or [search]) leaves
    it so. *)
Theorem registry_coherent self :
  reachable self ->
  coherent self /\ forall c, coherent (step self c).
Proof.
  intros Hr. split.
  - apply pointwise_coherent, reachable_invariant, Hr.
  - intros c. apply pointwise_coherent.
    apply (step_invariant self c), reachable_invariant, Hr.
Qed.

Lemma registry_coherent_witness :
  reachable Examples.downloaded
  /\ coherent Examples.downloaded
  /\ forall c, coherent (step Examples.downloaded c).
Proof.
  assert (Hr : reachable Examples.downloaded)
    by (repeat apply reach_step; apply reach_init).
  split; [exact Hr|].
  exact (registry_coherent Examples.downloaded Hr).
Defined.

(** C5, as amended.  For every [min_quality] other than NaN, [search]
    never raises and its answer holds exactly the stored listings whose
    quality score is at least [min_quality] (the bound included), whose
    category equals the given one up to letter case when one is given, and
    which pass the text filter, the three conditions taken together; each
    such listing appears as often as it is stored, and the answer is in
    non-increasing order of quality score.  An empty answer is an ordinary
    answer. *)
Theorem search_filters_and_order self query category min_quality :
  min_quality <> PyFloat.NaN ->
  exists results,
    search self query category min_quality = Ok results
    /\ (forall l,
          In l results
          <-> In l (OrderedDict.values (_listings self))
              /\ quality_ok min_quality l
              /\ category_ok category l
              /\ text_ok query l)
    /\ Permutation results
         (List.filter (keepb (PyStr.strip (PyStr.lower query)) category min_quality)
            (OrderedDict.values (_listings self)))
    /\ StronglySorted desc results.
Proof.
  intros Hnan. eexists. split; [apply search_sorted_filter|]. split; [|split].
  - intros l.
    assert (Hq : quality_ok min_quality l <-> quality_kept min_quality l)
      by (split; [apply quality_ok_kept|apply quality_kept_ok, Hnan]).
    rewrite Hq, <- keepb_true, <- filter_In. split.
    + apply Permutation_in, sort_desc_perm.
    + apply Permutation_in. symmetry. apply sort_desc_perm.
  - apply sort_desc_perm.
  - apply sort_desc_sorted.
Qed.

Lemma search_filters_and_order_witness :
  PyFloat.Finite (9 # 10) <> PyFloat.NaN
  /\ exists results,
       search Examples.registry "" (Some "HELPFULNESS") (PyFloat.Finite (9 # 10))
       = Ok results
       /\ (forall l,
             In l results
             <-> In l (OrderedDict.values (_listings Examples.registry))
                 /\ quality_ok (PyFloat.Finite (9 # 10)) l
                 /\ category_ok (Some "HELPFULNESS") l
                 /\ text_ok "" l)
       /\ Permutation results
            (List.filter
               (keepb (PyStr.strip (PyStr.lower "")) (Some "HELPFULNESS")
                  (PyFloat.Finite (9 # 10)))
               (OrderedDict.values (_listings Examples.registry)))
       /\ StronglySorted desc results.
Proof.
  assert (H : PyFloat.Finite (9 # 10) <> PyFloat.NaN) by discriminate.
  split; [exact H|].
  exact (search_filters_and_order Examples.registry "" (Some "HELPFULNESS")
           (PyFloat.Finite (9 # 10)) H).
Defined.

(** C5 as stated fails at a NaN threshold.  No quality score is at least
    NaN, yet [search] returns both listings of the test registry: the loop
    drops a listing only when [quality_score < min_quality], which is false
    at NaN. *)
Lemma search_nan_threshold_counterexample :
  search Examples.registry "" None PyFloat.NaN
  = Ok [MarketplaceListing.mk Examples.high_quality_dataset 0 0 0;
        MarketplaceListing.mk Examples.sample_dataset 0 0 0]
  /\ forall l, ~ quality_ok PyFloat.NaN l.
Proof.
  split; [vm_compute; reflexivity|].
  intros l H. unfold quality_ok in H. cbn in H. discriminate H.
Qed.

(** C4, as amended.  For a stored listing that passes the quality and the
    category filter, [search] returns it exactly when the query, trimmed and
    lowercased, is empty or occurs as a literal substring of the lowercased
    text made of the name, the description and the tags joined by single
    spaces.  The pattern handed to the matcher spells the query out
    character by character, whatever metacharacters the query holds. *)
Theorem search_text_filter self query category min_quality l :
  In l (OrderedDict.values (_listings self)) ->
  quality_ok min_quality l ->
  category_ok category l ->
  Re.compile (Re.escape (PyStr.strip (PyStr.lower query)))
  = Some (Re.literal (PyStr.strip (PyStr.lower query)))
  /\ exists results,
       search self query category min_quality = Ok results
       /\ (In l results <-> text_ok query l).
Proof.
  intros Hin Hq Hc. split; [apply compile_escape|].
  eexists. split; [apply search_sorted_filter|].
  pose proof (keepb_true query category min_quality l) as K.
  apply quality_ok_kept in Hq. split.
  - intros H. eapply Permutation_in in H; [|apply sort_desc_perm].
    apply filter_In in H. tauto.
  - intros H. eapply Permutation_in; [symmetry; apply sort_desc_perm|].
    apply filter_In. tauto.
Qed.

Lemma search_text_filter_witness :
  In (MarketplaceListing.mk Examples.sample_dataset 0 0 0)
     (OrderedDict.values (_listings Examples.registry))
  /\ quality_ok (PyFloat.Finite 0)
       (MarketplaceListing.mk Examples.sample_dataset 0 0 0)
  /\ category_ok None (MarketplaceListing.mk Examples.sample_dataset 0 0 0)
  /\ Re.compile (Re.escape (PyStr.strip (PyStr.lower " SAFETY Prompts ")))
     = Some (Re.literal (PyStr.strip (PyStr.lower " SAFETY Prompts ")))
  /\ exists results,
       search Examples.registry " SAFETY Prompts " None (PyFloat.Finite 0)
       = Ok results
       /\ (In (MarketplaceListing.mk Examples.sample_dataset 0 0 0) results
           <-> text_ok " SAFETY Prompts "
                 (MarketplaceListing.mk Examples.sample_dataset 0 0 0)).
Proof.
  assert (Hin : In (MarketplaceListing.mk Examples.sample_dataset 0 0 0)
                   (OrderedDict.values (_listings Examples.registry)))
    by (left; reflexivity).
  assert (Hq : quality_ok (PyFloat.Finite 0)
                 (MarketplaceListing.mk Examples.sample_dataset 0 0 0))
    by (vm_compute; reflexivity).
  assert (Hc : category_ok None (MarketplaceListing.mk Examples.sample_dataset 0 0 0))
    by (intros c H; discriminate H).
  split; [exact Hin|]. split; [exact Hq|]. split; [exact Hc|].
  exact (search_text_filter Examples.registry " SAFETY Prompts " None
           (PyFloat.Finite 0) _ Hin Hq Hc).
Defined.

(** C4 as stated fails.  With name "ab" and description "cd" the plain
    concatenation of the fields is "abcd" and contains "bc"; [search]
    matches against "ab cd" and returns nothing. *)
Lemma search_text_concat_counterexample :
  In Examples.ab_cd_listing (OrderedDict.values (_listings Examples.ab_cd_registry))
  /\ quality_ok (PyFloat.Finite 0) Examples.ab_cd_listing
  /\ text_ok_concat "bc" Examples.ab_cd_listing
  /\ search Examples.ab_cd_registry "bc" None (PyFloat.Finite 0) = Ok [].
Proof.
  split; [left; reflexivity|]. split; [vm_compute; reflexivity|].
  split; [|vm_compute; reflexivity].
  right. exists "a", "d". reflexivity.
Qed.

(** The other direction: "b c" is found across the joining space, though
    the plain concatenation "abcd" does not contain it. *)
Example search_across_fields :
  search Examples.ab_cd_registry "b c" None (PyFloat.Finite 0)
  = Ok [Examples.ab_cd_listing]
  /\ PyStr.contains "b c" "abcd" = false.
Proof. split; vm_compute; reflexivity. Qed.

(** A query of ".*" finds nothing in the test registry, while the same text
    compiled as a pattern would match any text. *)
Example search_dot_star :
  search Examples.registry ".*" None (PyFloat.Finite 0) = Ok []
  /\ Re.search ".*" (searchable Examples.sample_dataset) = Ok true.
Proof. split; vm_compute; reflexivity. Qed.

(** C6.  The default scorer reads the "score" entry of the record.  A
    float, NaN and the infinities included, is returned clamped into [0, 1];
    a bool gives 0 or 1; a string, or no entry at all, gives exactly 0.5.  So
    0.75 gives 0.75, 5.0 gives 1.0, -3.0 gives 0.0, a record with only a
    "text" entry gives 0.5, the score "high" gives 0.5 and the score True
    gives 1.0.  An int is first converted by [float]: an int of absolute
    value below 2^1024 - 2^970 is returned clamped into [0, 1], and for every
    other int, 10**400 among them, the scorer raises [OverflowError] instead
    of returning the clamped value. *)
Theorem default_scorer_contract :
  (forall o : output,
     match o !! "score" with
     | Some (VFloat x) =>
         exists r, _default_scorer o = Ok (PyFloat.Finite r) /\ r == clamp_float x
     | Some (VInt n) =>
         (in_double_range n ->
          exists r,
            _default_scorer o = Ok (PyFloat.Finite r)
            /\ r == clamp01 (inject_Z n))
         /\ (~ in_double_range n -> _default_scorer o = Err OverflowError)
     | Some (VBool b) =>
         _default_scorer o = Ok (PyFloat.Finite (if b then 1 else 0))
     | Some (VStr _) => _default_scorer o = Ok (PyFloat.Finite (1 # 2))
     | None => _default_scorer o = Ok (PyFloat.Finite (1 # 2))
     end)
  /\ _default_scorer {[ "score" := VFloat (PyFloat.Finite (3 # 4)) ]}
     = Ok (PyFloat.Finite (3 # 4))
  /\ _default_scorer {[ "score" := VFloat (PyFloat.Finite 5) ]}
     = Ok (PyFloat.Finite 1)
  /\ _default_scorer {[ "score" := VFloat (PyFloat.Finite (-3)) ]}
     = Ok (PyFloat.Finite 0)
  /\ _default_scorer {[ "text" := VStr "x" ]} = Ok (PyFloat.Finite (1 # 2))
  /\ _default_scorer {[ "score" := VStr "high" ]} = Ok (PyFloat.Finite (1 # 2))
  /\ _default_scorer {[ "score" := VBool true ]} = Ok (PyFloat.Finite 1)
  /\ _default_scorer {[ "score" := VInt 7 ]} = Ok (PyFloat.Finite 1)
  /\ _default_scorer {[ "score" := VInt (10 ^ 400) ]} = Err OverflowError.
Proof.
  split; [|repeat split; vm_compute; reflexivity].
  intros o. unfold _default_scorer.
  destruct (o !! "score") as [[s|x|n|b]|];
    cbn [default from_option id as_number]; try reflexivity.
  - destruct (max_min_clamp x) as (r & Hr & Hc).
    exists r. rewrite Hr. split; [reflexivity|exact Hc].
  - split; intros Hn.
    + destruct (of_int_in_range n Hn) as (r0 & -> & H0).
      destruct (max_min_clamp (PyFloat.Finite r0)) as (r & Hr & Hc).
      exists r. rewrite Hr. split; [reflexivity|].
      rewrite Hc. cbn [clamp_float]. rewrite H0. reflexivity.
    + rewrite (of_int_overflow n Hn). reflexivity.
  - destruct b; vm_compute; reflexivity.
Qed.

Lemma default_scorer_contract_witness :
  in_double_range 7
  /\ (exists r,
        _default_scorer {[ "score" := VInt 7 ]} = Ok (PyFloat.Finite r)
        /\ r == clamp01 (inject_Z 7))
  /\ ~ in_double_range (10 ^ 400)
  /\ _default_scorer {[ "score" := VInt (10 ^ 400) ]} = Err OverflowError.
Proof.
  assert (H7 : in_double_range 7) by (vm_compute; reflexivity).
  assert (Hbig : ~ in_double_range (10 ^ 400)) by (vm_compute; discriminate).
  split; [exact H7|]. split; [|split; [exact Hbig|]].
  - exact (proj1 (proj1 default_scorer_contract {[ "score" := VInt 7 ]}) H7).
  - exact (proj2 (proj1 default_scorer_contract {[ "score" := VInt (10 ^ 400) ]})
             Hbig).
Defined.

(** C7.  On a registered dataset id and an empty batch, [evaluate] returns a
    result, with score 0, and 0 for the mean, the minimum, the maximum and
    the sample count. *)
Theorem evaluate_empty_batch registry self id name now d :
  _datasets registry !! id = Some d ->
  exists r self',
    EvaluationRunner.evaluate registry self id [] name now = (Ok r, self')
    /\ EvaluationResult.score r = 0%Q
    /\ EvaluationResult.metrics r !! "mean_score" = Some (PyFloat.Finite 0)
    /\ EvaluationResult.metrics r !! "min_score" = Some (PyFloat.Finite 0)
    /\ EvaluationResult.metrics r !! "max_score" = Some (PyFloat.Finite 0)
    /\ EvaluationResult.metrics r !! "sample_count" = Some (PyFloat.Finite 0).
Proof.
  intros H. unfold EvaluationRunner.evaluate.
  rewrite evaluate_with_unfold. unfold get. rewrite H.
  cbn [EvaluationRunner.score_all].
  change (EvaluationRunner.op_round4 EvaluationRunner.cpython
            (EvaluationRunner.aggregate EvaluationRunner.cpython []))
    with (PyFloat.Finite 0).
  cbn [EvaluationResult.create].
  change (PyFloat.in_range 0 1 0) with true. cbv iota.
  eexists. eexists. split; [reflexivity|].
  cbn [EvaluationResult.score EvaluationResult.metrics].
  repeat split; vm_compute; reflexivity.
Qed.

Lemma evaluate_empty_batch_witness :
  _datasets Examples.registry !! "ds-001" = Some Examples.sample_dataset
  /\ exists r self',
       EvaluationRunner.evaluate Examples.registry Examples.runner "ds-001" []
         "empty-model" 0 = (Ok r, self')
       /\ EvaluationResult.score r = 0%Q
       /\ EvaluationResult.metrics r !! "mean_score" = Some (PyFloat.Finite 0)
       /\ EvaluationResult.metrics r !! "min_score" = Some (PyFloat.Finite 0)
       /\ EvaluationResult.metrics r !! "max_score" = Some (PyFloat.Finite 0)
       /\ EvaluationResult.metrics r !! "sample_count" = Some (PyFloat.Finite 0).
Proof.
  assert (H : _datasets Examples.registry !! "ds-001" = Some Examples.sample_dataset)
    by (vm_compute; reflexivity).
  split; [exact H|].
  exact (evaluate_empty_batch Examples.registry Examples.runner "ds-001"
           "empty-model" 0 Examples.sample_dataset H).
Defined.

(** C8.  A call of [evaluate] that returns a result appends exactly that
    result to the history of its dataset id, and a call that raises changes
    no history; the returned result carries the call's dataset id and model
    name.  Hence, from a fresh runner and through any sequence of calls,
    [get_results(id)] is the list of the results of the successful
    evaluations of [id] in call order, repetitions included, and it is the
    empty list when there were none. *)
Theorem history_is_log_of_successes :
  (forall registry self id outs name now id',
     let ev := EvaluationRunner.evaluate registry self id outs name now in
     EvaluationRunner.get_results (snd ev) id'
     = (EvaluationRunner.get_results self id'
        ++ Session.successes id' [fst ev])%list
     /\ match fst ev with
        | Ok r =>
            EvaluationResult.dataset_id r = id
            /\ EvaluationResult.model_name r = name
            /\ Session.successes id [fst ev] = [r]
        | Err _ => snd ev = self
        end)
  /\ (forall registry scoring_fn calls id,
        let final :=
          Session.run (Session.mk registry (EvaluationRunner.init scoring_fn)) calls in
        EvaluationRunner.get_results (Session.runner (fst final)) id
        = Session.successes id (snd final))
  /\ (forall scoring_fn id,
        EvaluationRunner.get_results (EvaluationRunner.init scoring_fn) id = []).
Proof.
  split; [|split].
  - intros registry self id outs name now id' ev. split.
    + apply evaluate_history.
    + destruct (fst ev) as [r|e] eqn:E.
      * destruct (evaluate_fields _ _ _ _ _ _ _ E) as (Hid & Hname & _).
        repeat split; [exact Hid|exact Hname|].
        cbn [Session.successes flat_map]. rewrite Hid, String.eqb_refl.
        reflexivity.
      * subst ev. unfold EvaluationRunner.evaluate in *.
        rewrite evaluate_with_unfold in *.
        destruct (get registry id); [|reflexivity].
        destruct (EvaluationRunner.score_all _ outs); [|reflexivity].
        destruct (EvaluationResult.create _ _ _ _ _); [discriminate|reflexivity].
  - intros registry scoring_fn calls id final. subst final.
    rewrite run_history. reflexivity.
  - intros scoring_fn id. reflexivity.
Qed.

(** Three evaluations of ds-001 under three model names, one of them on an
    empty batch and one repeated: four entries, in call order. *)
Example three_models_history :
  map EvaluationResult.model_name
    (EvaluationRunner.get_results
       (Session.runner
          (fst (Session.run (Session.mk Examples.registry Examples.runner)
                  [Session.Evaluate "ds-001" [Examples.half_output] "model-a" 1;
                   Session.Evaluate "ds-002" [Examples.half_output] "model-x" 2;
                   Session.Evaluate "ds-001" [] "model-b" 3;
                   Session.Evaluate "missing" [Examples.half_output] "model-y" 4;
                   Session.Evaluate "ds-001" [Examples.half_output] "model-c" 5;
                   Session.Evaluate "ds-001" [Examples.half_output] "model-c" 5])))
       "ds-001")
  = ["model-a"; "model-b"; "model-c"; "model-c"].
Proof. vm_compute. reflexivity. Qed.




(** Scores outside [0, 1] go through unclamped when their mean is inside:
    with scores 1.5 and 0.5 the result's maximum is 1.5. *)
Example evaluate_keeps_out_of_range_scores :
  let f : ScoringFunction :=
    fun o =>
      match o !! "score" with
      | Some (VFloat x) => Ok x
      | _ => Ok (PyFloat.Finite 0)
      end in
  match fst (EvaluationRunner.evaluate Examples.registry
               (EvaluationRunner.init (Some f)) "ds-001"
               [{[ "score" := VFloat (PyFloat.Finite (3 # 2)) ]}; Examples.half_output]
               "unknown" 0) with
  | Ok r =>
      EvaluationResult.score r = 1%Q
      /\ EvaluationResult.metrics r !! "max_score" = Some (PyFloat.Finite (3 # 2))
  | Err _ => False
  end.
Proof. vm_compute. split; reflexivity. Qed.

(** A mean just below zero is rejected where exact arithmetic would round
    it to zero: 625 scores, the first -0.03125 and the others 0.0, have the
    mean nearest to -0.00005, which [round] takes to -0.0001. *)
Example evaluate_rounds_in_binary64 :
  let f : ScoringFunction :=
    fun o =>
      match o !! "score" with
      | Some (VFloat x) => Ok x
      | _ => Ok (PyFloat.Finite 0)
      end in
  fst (EvaluationRunner.evaluate Examples.registry
         (EvaluationRunner.init (Some f)) "ds-001"
         ({[ "score" := VFloat (PyFloat.Finite (- (1 # 32))) ]} :: repeat ∅ 624)
         "unknown" 0)
  = Err (ValidationError "score").
Proof. vm_compute. reflexivity. Qed.

(** The compensated [sum] of CPython 3.12 and later and the plain [sum]
    before it differ on ten scores 0.1: the one gives 1.0, the other
    0.9999999999999999.  Under both, [evaluate] returns a result with score
    0.1; the [mean_score] is 0.1 under the one and 0.09999999999999999 under
    the other. *)
Example evaluate_under_both_sums :
  let tenth := PyFloat.of_Q (1 # 10) in
  let outs := repeat ({[ "score" := VFloat tenth ]} : output) 10 in
  let mean ops :=
    match fst (EvaluationRunner.evaluate_with ops Examples.registry
                 Examples.runner "ds-001" outs "unknown" 0) with
    | Ok r =>
        Some (PyFloat.Finite (EvaluationResult.score r),
              EvaluationResult.metrics r !! "mean_score")
    | Err _ => None
    end in
  PyFloat.sum (repeat tenth 10) = PyFloat.Finite 1
  /\ PyFloat.sum_plain (repeat tenth 10)
     = PyFloat.Finite (9007199254740991 # 9007199254740992)
  /\ mean EvaluationRunner.cpython = Some (tenth, Some tenth)
  /\ mean EvaluationRunner.cpython_3_11
     = Some (tenth,
             Some (PyFloat.Finite (7205759403792793 # 72057594037927936))).
Proof. vm_compute. repeat split. Qed.

End Claims.

(** * Further properties of the registry, the runner and the handlers *)

(** ** Listings along a trace of calls *)

Section ListingFacts.

Import DatasetRegistry RegistrySpec TraceSpec.

Lemma od_set_set {V} (k : string) (v : V) (d : OrderedDict.t V) :
  OrderedDict.set k v (OrderedDict.set k v d) = OrderedDict.set k v d.
Proof.
  induction d as [|[k' v'] d IH]; simpl.
  - rewrite String.eqb_refl. reflexivity.
  - destruct (String.eqb k k') eqn:E; simpl.
    + rewrite String.eqb_refl. reflexivity.
    + rewrite E, IH. reflexivity.
Qed.

Lemma od_keys_existsb {V} (k : string) (d : OrderedDict.t V) :
  existsb (String.eqb k) (OrderedDict.keys d)
  = match OrderedDict.get k d with Some _ => true | None => false end.
Proof.
  induction d as [|[k' v'] d IH]; simpl; [reflexivity|].
  destruct (String.eqb k k'); simpl; [reflexivity|exact IH].
Qed.

Lemma od_keys_set {V} (k : string) (v : V) (d : OrderedDict.t V) :
  OrderedDict.keys (OrderedDict.set k v d)
  = if existsb (String.eqb k) (OrderedDict.keys d)
    then OrderedDict.keys d else (OrderedDict.keys d ++ [k])%list.
Proof.
  rewrite od_keys_existsb.
  destruct (OrderedDict.get k d) as [x|] eqn:E.
  - apply od_keys_set_mem. eauto.
  - apply od_keys_set_new. exact E.
Qed.

Lemma reachable_valid self : reachable self -> listings_valid self.
Proof. intros H. apply reachable_invariant in H. tauto. Qed.

(** The listing order after one call. *)
Lemma step_keys self c :
  reachable self ->
  OrderedDict.keys (_listings (step self c))
  = order_step (OrderedDict.keys (_listings self)) c.
Proof.
  intros Hr. pose proof (reachable_valid self Hr) as Hv.
  destruct c as [d|i|i|q c mq]; cbn [step order_step]; try reflexivity.
  - rewrite (register_valid self d Hv). cbn [snd _listings]. apply od_keys_set.
  - rewrite (increment_valid self i Hv). cbn [snd].
    destruct (OrderedDict.get i (_listings self)) as [l|] eqn:E; [|reflexivity].
    cbn [_listings]. apply od_keys_set_mem. eauto.
Qed.

Lemma order_step_NoDup ids c : List.NoDup ids -> List.NoDup (order_step ids c).
Proof.
  intros H. destruct c as [d|i|i|q c mq]; cbn [order_step]; try exact H.
  destruct (existsb _ ids) eqn:E; [exact H|].
  apply List.NoDup_app; [exact H|repeat constructor; intros []|].
  intros a Ha [<-|[]].
  assert (existsb (String.eqb (AlignmentDataset.dataset_id d)) ids = true);
    [|congruence].
  apply existsb_exists. exists (AlignmentDataset.dataset_id d).
  split; [exact Ha|apply String.eqb_refl].
Qed.

Lemma run_reachable self calls : reachable self -> reachable (run self calls).
Proof.
  revert self. induction calls as [|c calls IH]; intros self Hr; [exact Hr|].
  apply IH, reach_step, Hr.
Qed.

Lemma run_keys calls self :
  reachable self ->
  OrderedDict.keys (_listings (run self calls))
  = order_after (OrderedDict.keys (_listings self)) calls.
Proof.
  revert self. induction calls as [|c calls IH]; intros self Hr; [reflexivity|].
  unfold run, order_after in *. cbn [fold_left].
  rewrite IH by (apply reach_step, Hr). rewrite (step_keys self c Hr).
  reflexivity.
Qed.

Lemma reachable_keys_NoDup self :
  reachable self -> List.NoDup (OrderedDict.keys (_listings self)).
Proof.
  induction 1 as [|self c Hr IH]; [constructor|].
  rewrite (step_keys self c Hr). apply order_step_NoDup, IH.
Qed.

Lemma step_shape self c :
  reachable self ->
  (forall id l, OrderedDict.get id (_listings self) = Some l -> listing_shape id l) ->
  forall id l,
    OrderedDict.get id (_listings (step self c)) = Some l -> listing_shape id l.
Proof.
  intros Hr Hs id l. pose proof (reachable_valid self Hr) as Hv.
  destruct c as [d|i|i|q c mq]; cbn [step]; try apply Hs.
  - rewrite (register_valid self d Hv). cbn [snd _listings].
    destruct (String.eqb (AlignmentDataset.dataset_id d) id) eqn:E.
    + apply String.eqb_eq in E. subst id. rewrite od_get_set_eq. intros [= <-].
      destruct (OrderedDict.get _ (_listings self)) as [e|] eqn:Ee.
      * destruct (Hs _ e Ee) as (_ & Hr0 & Hv0 & Hd0).
        unfold listing_shape. cbn. auto.
      * unfold listing_shape. cbn. repeat split; lia.
    + apply String.eqb_neq in E. rewrite od_get_set_ne by exact E. apply Hs.
  - rewrite (increment_valid self i Hv). cbn [snd].
    destruct (OrderedDict.get i (_listings self)) as [e|] eqn:Ee; [|apply Hs].
    cbn [_listings]. destruct (String.eqb i id) eqn:E.
    + apply String.eqb_eq in E. subst id. rewrite od_get_set_eq. intros [= <-].
      destruct (Hs _ e Ee) as (Hi0 & Hr0 & Hv0 & Hd0).
      unfold listing_shape. cbn. repeat split; auto; lia.
    + apply String.eqb_neq in E. rewrite od_get_set_ne by exact E. apply Hs.
Qed.

Lemma reachable_shape self :
  reachable self ->
  forall id l, OrderedDict.get id (_listings self) = Some l -> listing_shape id l.
Proof.
  induction 1 as [|self c Hr IH]; [intros id l; discriminate|].
  apply step_shape; assumption.
Qed.

(** The download counter after one call. *)
Lemma step_downloads self c id :
  reachable self ->
  MarketplaceListing.downloads <$> OrderedDict.get id (_listings (step self c))
  = count_step id
      (MarketplaceListing.downloads <$> OrderedDict.get id (_listings self)) c.
Proof.
  intros Hr. pose proof (reachable_valid self Hr) as Hv.
  destruct c as [d|i|i|q c mq]; cbn [step count_step]; try reflexivity.
  - rewrite (register_valid self d Hv). cbn [snd _listings].
    destruct (String.eqb (AlignmentDataset.dataset_id d) id) eqn:E.
    + apply String.eqb_eq in E. subst id. rewrite od_get_set_eq.
      destruct (OrderedDict.get _ (_listings self)); reflexivity.
    + apply String.eqb_neq in E. rewrite od_get_set_ne by exact E. reflexivity.
  - rewrite (increment_valid self i Hv). cbn [snd].
    destruct (String.eqb i id) eqn:E.
    + apply String.eqb_eq in E. subst id.
      destruct (OrderedDict.get i (_listings self)) as [e|] eqn:Ee.
      * cbn [_listings]. rewrite od_get_set_eq. cbn. f_equal; lia.
      * rewrite Ee. reflexivity.
    + apply String.eqb_neq in E.
      destruct (OrderedDict.get i (_listings self)) as [e|] eqn:Ee;
        [|reflexivity].
      cbn [_listings]. rewrite od_get_set_ne by exact E. reflexivity.
Qed.

Lemma run_downloads calls self id :
  reachable self ->
  MarketplaceListing.downloads <$> OrderedDict.get id (_listings (run self calls))
  = downloads_after id
      (MarketplaceListing.downloads <$> OrderedDict.get id (_listings self)) calls.
Proof.
  revert self. induction calls as [|c calls IH]; intros self Hr; [reflexivity|].
  unfold run, downloads_after in *. cbn [fold_left].
  rewrite IH by (apply reach_step, Hr). rewrite (step_downloads self c id Hr).
  reflexivity.
Qed.

(** The dataset records along a trace. *)
Lemma run_datasets id calls self :
  _datasets (run self calls) !! id
  = match last_registered id calls with
    | Some d => Some d
    | None => _datasets self !! id
    end.
Proof.
  revert self. induction calls as [|c calls IH]; intros self; [reflexivity|].
  unfold run in *. cbn [fold_left last_registered]. rewrite IH.
  destruct (last_registered id calls) as [d0|]; [reflexivity|].
  destruct c as [d|i|i|q c mq]; cbn [step]; try reflexivity.
  - rewrite register_datasets_eq.
    destruct (String.eqb _ _) eqn:E.
    + apply String.eqb_eq in E. subst id. apply lookup_insert_eq.
    + apply String.eqb_neq in E. apply lookup_insert_ne. exact E.
  - rewrite increment_datasets_eq. reflexivity.
Qed.

End ListingFacts.

(** ** The stable sort of search *)

Section SortFacts.

Import DatasetRegistry SearchSpec TraceSpec.

Lemma leb_false_lt (x y : Q) : PyFloat.leb x y = false -> (y < x)%Q.
Proof.
  unfold PyFloat.leb. intros E.
  destruct (Qlt_le_dec y x) as [H|H]; [exact H|].
  apply Qle_bool_iff in H. congruence.
Qed.

(** A value not below a threshold is not below a smaller one. *)
Lemma flt_fle_mono (k : Q) (mq1 mq2 : PyFloat.t) :
  EvaluationSpec.float_le mq1 mq2 ->
  PyFloat.flt (PyFloat.Finite k) mq2 = false ->
  PyFloat.flt (PyFloat.Finite k) mq1 = false.
Proof.
  unfold EvaluationSpec.float_le.
  destruct mq1 as [a| | |], mq2 as [b| | |]; cbn [PyFloat.fle PyFloat.flt];
    try discriminate; try reflexivity.
  unfold PyFloat.leb, PyFloat.ltb. rewrite !negb_false_iff, !Qle_bool_iff.
  intros Hab Hb. eapply Qle_trans; eassumption.
Qed.

(** Insertion does not reorder listings of one quality. *)
Lemma ties_insert_desc q x l : ties q (insert_desc x l) = ties q (x :: l).
Proof.
  induction l as [|y l IH]; [reflexivity|].
  cbn [insert_desc]. destruct (PyFloat.leb (sort_key y) (sort_key x)) eqn:E;
    [reflexivity|].
  apply leb_false_lt in E. unfold ties in *. cbn [List.filter] in *. rewrite IH.
  destruct (Qeq_bool (sort_key y) q) eqn:Ey, (Qeq_bool (sort_key x) q) eqn:Ex;
    try reflexivity.
  apply Qeq_bool_iff in Ey, Ex. rewrite Ey, Ex in E.
  exfalso. exact (Qlt_irrefl q E).
Qed.

Lemma ties_sort_desc q l : ties q (sort_desc l) = ties q l.
Proof.
  induction l as [|x l IH]; [reflexivity|].
  cbn [sort_desc fold_right]. rewrite ties_insert_desc.
  unfold ties in *. cbn [List.filter]. fold (sort_desc l). rewrite IH.
  reflexivity.
Qed.

(** Inserting into a sorted list and filtering commute. *)
Lemma filter_insert_desc (p : MarketplaceListing.t -> bool) x l :
  StronglySorted desc l ->
  List.filter p (insert_desc x l)
  = if p x then insert_desc x (List.filter p l) else List.filter p l.
Proof.
  induction 1 as [|y l Hs IH Hy].
  - cbn. destruct (p x); reflexivity.
  - cbn [insert_desc]. destruct (PyFloat.leb (sort_key y) (sort_key x)) eqn:E.
    + change (List.filter p (x :: y :: l))
        with (if p x then x :: List.filter p (y :: l) else List.filter p (y :: l)).
      destruct (p x); [|reflexivity].
      assert (Hall : Forall (fun z => PyFloat.leb (sort_key z) (sort_key x) = true)
                       (y :: l)).
      { constructor; [exact E|].
        eapply List.Forall_impl; [|exact Hy]. intros z Hz.
        apply Qle_bool_iff. apply Qle_bool_iff in E. unfold desc in Hz.
        eapply Qle_trans; eassumption. }
      assert (Hf : forall ys,
                 Forall (fun z => PyFloat.leb (sort_key z) (sort_key x) = true) ys ->
                 insert_desc x (List.filter p ys) = x :: List.filter p ys).
      { intros ys Hys. induction Hys as [|z ys Hz _ IHys]; [reflexivity|].
        cbn [List.filter]. destruct (p z); [|exact IHys].
        cbn [insert_desc]. rewrite Hz. reflexivity. }
      rewrite (Hf _ Hall). reflexivity.
    + cbn [List.filter]. rewrite IH.
      destruct (p y), (p x); cbn [insert_desc]; rewrite ?E; reflexivity.
Qed.

Lemma filter_sort_desc (p : MarketplaceListing.t -> bool) l :
  List.filter p (sort_desc l) = sort_desc (List.filter p l).
Proof.
  induction l as [|x l IH]; [reflexivity|].
  cbn [sort_desc fold_right List.filter]. fold (sort_desc l).
  rewrite filter_insert_desc by apply sort_desc_sorted. rewrite IH.
  destruct (p x); reflexivity.
Qed.

Lemma filter_filter_andb {A} (p q : A -> bool) (l : list A) :
  List.filter p (List.filter q l) = List.filter (fun x => q x && p x) l.
Proof.
  induction l as [|x l IH]; [reflexivity|].
  cbn [List.filter]. destruct (q x); cbn [List.filter andb]; rewrite IH;
    reflexivity.
Qed.

Lemma filter_ext_bool {A} (p q : A -> bool) (l : list A) :
  (forall x, p x = q x) -> List.filter p l = List.filter q l.
Proof.
  intros H. induction l as [|x l IH]; [reflexivity|].
  cbn [List.filter]. rewrite H, IH. reflexivity.
Qed.

Lemma keepb_dataset ql c mq a b :
  MarketplaceListing.dataset a = MarketplaceListing.dataset b ->
  keepb ql c mq a = keepb ql c mq b.
Proof. unfold keepb, sort_key. intros ->. reflexivity. Qed.

Lemma same_datasets_filter ql c mq l1 l2 :
  same_datasets l1 l2 ->
  same_datasets (List.filter (keepb ql c mq) l1) (List.filter (keepb ql c mq) l2).
Proof.
  induction 1 as [|a b l1 l2 Hab _ IH]; [constructor|].
  cbn [List.filter]. rewrite (keepb_dataset ql c mq a b Hab).
  destruct (keepb ql c mq b); [constructor; assumption|exact IH].
Qed.

Lemma same_datasets_insert a b l1 l2 :
  MarketplaceListing.dataset a = MarketplaceListing.dataset b ->
  same_datasets l1 l2 ->
  same_datasets (insert_desc a l1) (insert_desc b l2).
Proof.
  intros Hab. induction 1 as [|x y l1 l2 Hxy Hl IH].
  - repeat constructor. exact Hab.
  - cbn [insert_desc]. unfold sort_key in *. rewrite Hab, Hxy.
    destruct (PyFloat.leb _ _).
    + constructor; [exact Hab|]. constructor; assumption.
    + constructor; assumption.
Qed.

Lemma same_datasets_sort l1 l2 :
  same_datasets l1 l2 -> same_datasets (sort_desc l1) (sort_desc l2).
Proof.
  induction 1 as [|a b l1 l2 Hab _ IH]; [constructor|].
  cbn [sort_desc fold_right]. apply same_datasets_insert; assumption.
Qed.

Lemma same_datasets_map l1 l2 :
  same_datasets l1 l2 ->
  map MarketplaceListing.dataset l1 = map MarketplaceListing.dataset l2.
Proof. induction 1; cbn [map]; congruence. Qed.

Lemma same_datasets_refl l : same_datasets l l.
Proof. induction l; constructor; auto. Qed.

Lemma same_datasets_set id l' (d : OrderedDict.t MarketplaceListing.t) l :
  OrderedDict.get id d = Some l ->
  MarketplaceListing.dataset l' = MarketplaceListing.dataset l ->
  same_datasets (OrderedDict.values (OrderedDict.set id l' d)) (OrderedDict.values d).
Proof.
  intros Hg Hd. induction d as [|[k v] d IH]; [discriminate|].
  cbn [OrderedDict.get OrderedDict.set] in *.
  destruct (String.eqb id k).
  - injection Hg as ->. constructor; [exact Hd|apply same_datasets_refl].
  - constructor; [reflexivity|apply IH, Hg].
Qed.

End SortFacts.

(** ** Whitespace around a query *)

Section StripFacts.

Import TraceSpec.

Lemma lower_app (a b : string) :
  PyStr.lower (a ++ b) = (PyStr.lower a ++ PyStr.lower b)%string.
Proof.
  induction a as [|c a IH]; [reflexivity|].
  rewrite append_String. cbn [PyStr.lower]. rewrite append_String, IH.
  reflexivity.
Qed.

Lemma all_space_lower (s : string) : all_space (PyStr.lower s) = all_space s.
Proof.
  induction s as [|c s IH]; [reflexivity|].
  cbn [PyStr.lower all_space]. rewrite isspace_lower_char, IH. reflexivity.
Qed.

Lemma lstrip_all_space (s : string) :
  all_space s = true -> PyStr.lstrip s = EmptyString.
Proof.
  induction s as [|c s IH]; [reflexivity|].
  cbn [all_space PyStr.lstrip]. intros H. apply andb_true_iff in H as [Hc Hs].
  rewrite Hc. apply IH, Hs.
Qed.

Lemma rstrip_all_space (s : string) :
  all_space s = true -> PyStr.rstrip s = EmptyString.
Proof.
  induction s as [|c s IH]; [reflexivity|].
  cbn [all_space PyStr.rstrip]. intros H. apply andb_true_iff in H as [Hc Hs].
  rewrite (IH Hs), Hc. reflexivity.
Qed.

Lemma lstrip_app_space (pre s : string) :
  all_space pre = true -> PyStr.lstrip (pre ++ s) = PyStr.lstrip s.
Proof.
  induction pre as [|c pre IH]; [reflexivity|].
  cbn [all_space]. intros H. apply andb_true_iff in H as [Hc Hs].
  rewrite append_String. cbn [PyStr.lstrip]. rewrite Hc. apply IH, Hs.
Qed.

Lemma rstrip_app_space (s post : string) :
  all_space post = true -> PyStr.rstrip (s ++ post) = PyStr.rstrip s.
Proof.
  intros H. induction s as [|c s IH].
  - apply rstrip_all_space, H.
  - rewrite append_String. cbn [PyStr.rstrip]. rewrite IH. reflexivity.
Qed.

Lemma strip_app_space (pre s post : string) :
  all_space pre = true -> all_space post = true ->
  PyStr.strip (pre ++ s ++ post) = PyStr.strip s.
Proof.
  intros Hpre Hpost. unfold PyStr.strip. rewrite (lstrip_app_space _ _ Hpre).
  induction s as [|c s IH].
  - change (EmptyString ++ post)%string with post.
    rewrite (lstrip_all_space _ Hpost). reflexivity.
  - rewrite append_String. cbn [PyStr.lstrip]. destruct (PyStr.isspace c).
    + exact IH.
    + rewrite <- append_String. apply rstrip_app_space, Hpost.
Qed.

End StripFacts.

(** ** Scores and their extremes *)

Section ScoreFacts.

Import EvaluationSpec.
Local Open Scope Q_scope.

Lemma all_finite_map (xs : list PyFloat.t) :
  all_finite xs -> exists qs, xs = map PyFloat.Finite qs.
Proof.
  induction 1 as [|x xs Hx _ [qs ->]]; [exists []; reflexivity|].
  destruct x as [q| | |]; try discriminate. exists (q :: qs). reflexivity.
Qed.

(** [min(xs)] of finite floats is an element of the list and a lower bound
    of it. *)
Lemma min_list_spec (qs : list Q) (q : Q) :
  exists m,
    PyFloat.min_list (PyFloat.Finite q) (map PyFloat.Finite qs) = PyFloat.Finite m
    /\ In m (q :: qs)
    /\ forall y, In y (q :: qs) -> m <= y.
Proof.
  unfold PyFloat.min_list. revert q. induction qs as [|z qs IH]; intros q.
  - exists q. cbn. split; [reflexivity|]. split; [auto|].
    intros y [<-|[]]. apply Qle_refl.
  - cbn [map fold_left]. unfold PyFloat.min2 at 2. cbn [PyFloat.flt].
    destruct (PyFloat.ltb z q) eqn:E.
    + apply ltb_true in E. destruct (IH z) as (m & Hm & Hin & Hlb).
      exists m. split; [exact Hm|]. split.
      * destruct Hin as [<-|Hin]; [right; left; reflexivity|right; right; exact Hin].
      * intros y [<-|[<-|Hy]].
        -- eapply Qle_trans; [apply Hlb; left; reflexivity|apply Qlt_le_weak, E].
        -- apply Hlb. left. reflexivity.
        -- apply Hlb. right. exact Hy.
    + apply ltb_false in E. destruct (IH q) as (m & Hm & Hin & Hlb).
      exists m. split; [exact Hm|]. split.
      * destruct Hin as [<-|Hin]; [left; reflexivity|right; right; exact Hin].
      * intros y [<-|[<-|Hy]].
        -- apply Hlb. left. reflexivity.
        -- eapply Qle_trans; [apply Hlb; left; reflexivity|exact E].
        -- apply Hlb. right. exact Hy.
Qed.

(** [max(xs)] of finite floats is an element of the list and an upper bound
    of it. *)
Lemma max_list_spec (qs : list Q) (q : Q) :
  exists m,
    PyFloat.max_list (PyFloat.Finite q) (map PyFloat.Finite qs) = PyFloat.Finite m
    /\ In m (q :: qs)
    /\ forall y, In y (q :: qs) -> y <= m.
Proof.
  unfold PyFloat.max_list. revert q. induction qs as [|z qs IH]; intros q.
  - exists q. cbn. split; [reflexivity|]. split; [auto|].
    intros y [<-|[]]. apply Qle_refl.
  - cbn [map fold_left]. unfold PyFloat.max2 at 2. cbn [PyFloat.flt].
    destruct (PyFloat.ltb q z) eqn:E.
    + apply ltb_true in E. destruct (IH z) as (m & Hm & Hin & Hub).
      exists m. split; [exact Hm|]. split.
      * destruct Hin as [<-|Hin]; [right; left; reflexivity|right; right; exact Hin].
      * intros y [<-|[<-|Hy]].
        -- eapply Qle_trans; [apply Qlt_le_weak, E|apply Hub; left; reflexivity].
        -- apply Hub. left. reflexivity.
        -- apply Hub. right. exact Hy.
    + apply ltb_false in E. destruct (IH q) as (m & Hm & Hin & Hub).
      exists m. split; [exact Hm|]. split.
      * destruct Hin as [<-|Hin]; [left; reflexivity|right; right; exact Hin].
      * intros y [<-|[<-|Hy]].
        -- apply Hub. left. reflexivity.
        -- eapply Qle_trans; [exact E|apply Hub; left; reflexivity].
        -- apply Hub. right. exact Hy.
Qed.

(** Adding to an infinity or to NaN never gives a finite float. *)
Lemma add_finite (x y : PyFloat.t) :
  PyFloat.is_finite (PyFloat.add x y) = true ->
  PyFloat.is_finite x = true /\ PyFloat.is_finite y = true.
Proof. destruct x, y; cbn; auto. Qed.

Lemma sum_steps_finite (xs : list PyFloat.t) (acc : PyFloat.t * PyFloat.t) :
  PyFloat.is_finite (fst (fold_left PyFloat.sum_step xs acc)) = true ->
  PyFloat.is_finite (fst acc) = true /\ all_finite xs.
Proof.
  revert acc. induction xs as [|x xs IH]; intros acc H.
  - split; [exact H|constructor].
  - cbn [fold_left] in H. apply IH in H as [H Hxs].
    cbn [PyFloat.sum_step fst] in H. apply add_finite in H as [Hf Hx].
    split; [exact Hf|]. constructor; assumption.
Qed.

(** A finite [sum] has only finite items. *)
Lemma sum_finite (xs : list PyFloat.t) :
  PyFloat.is_finite (PyFloat.sum xs) = true -> all_finite xs.
Proof.
  destruct xs as [|x xs]; [constructor|]. cbn [PyFloat.sum].
  set (acc := fold_left PyFloat.sum_step xs _). intros H.
  assert (Hf : PyFloat.is_finite (fst acc) = true).
  { destruct (snd acc) as [c| | |]; try exact H.
    destruct (Qeq_bool c 0); [exact H|]. apply add_finite in H as [H _]. exact H. }
  apply sum_steps_finite in Hf as [Hf Hxs]. cbn [fst] in Hf.
  apply add_finite in Hf as [_ Hx]. constructor; assumption.
Qed.

(** A finite rounded mean has only finite scores. *)
Lemma rounded_mean_finite (scores : list PyFloat.t) :
  PyFloat.is_finite
    (EvaluationRunner.op_round4 EvaluationRunner.cpython
       (EvaluationRunner.aggregate EvaluationRunner.cpython scores)) = true ->
  all_finite scores.
Proof.
  destruct scores as [|x xs]; [constructor|].
  cbn [EvaluationRunner.aggregate EvaluationRunner.cpython
       EvaluationRunner.op_round4 EvaluationRunner.op_div_len
       EvaluationRunner.op_sum List.length PyFloat.div_len].
  intros H. apply sum_finite.
  destruct (PyFloat.sum (x :: xs)); [reflexivity|exact H..].
Qed.

Lemma score_all_map (f : ScoringFunction) (outs : list output) scores :
  EvaluationRunner.score_all f outs = Ok scores -> map f outs = map Ok scores.
Proof.
  revert scores. induction outs as [|o outs IH]; intros scores.
  - intros [= <-]. reflexivity.
  - cbn [EvaluationRunner.score_all map]. destruct (f o) as [s|]; [|discriminate].
    destruct (EvaluationRunner.score_all f outs) as [ss|]; [|discriminate].
    intros [= <-]. cbn [map]. rewrite (IH ss eq_refl). reflexivity.
Qed.

Lemma In_map_Ok {A} (x : A) (xs : list A) :
  In (Ok x) (map Ok xs) <-> In x xs.
Proof.
  split.
  - intros H. apply in_map_iff in H as (y & [= ->] & Hy). exact Hy.
  - apply in_map.
Qed.

End ScoreFacts.

(** ** The handlers along a trace of requests *)

Section ApiFacts.

Import DatasetRegistry RegistrySpec.

Lemma api_step_registry st r :
  Session.registry (Api.step st r)
  = match r with
    | Api.PostDataset d => snd (register (Session.registry st) d)
    | _ => Session.registry st
    end.
Proof. destruct r; reflexivity. Qed.

Lemma api_run_runner requests st :
  Session.runner (Api.run st requests) = Session.runner st.
Proof.
  revert st. induction requests as [|r requests IH]; intros st; [reflexivity|].
  unfold Api.run in *. cbn [fold_left]. rewrite IH. destruct r; reflexivity.
Qed.

Lemma api_run_reachable requests st :
  reachable (Session.registry st) ->
  reachable (Session.registry (Api.run st requests)).
Proof.
  revert st. induction requests as [|r requests IH]; intros st Hr; [exact Hr|].
  unfold Api.run in *. cbn [fold_left]. apply IH. rewrite api_step_registry.
  destruct r as [q c mq|i|d|i]; try exact Hr.
  exact (reach_step _ (Register d) Hr).
Qed.

Lemma api_run_datasets id requests st :
  _datasets (Session.registry (Api.run st requests)) !! id
  = match Api.last_posted id requests with
    | Some d => Some d
    | None => _datasets (Session.registry st) !! id
    end.
Proof.
  revert st. induction requests as [|r requests IH]; intros st; [reflexivity|].
  unfold Api.run in *. cbn [fold_left Api.last_posted]. rewrite IH.
  destruct (Api.last_posted id requests) as [d0|]; [reflexivity|].
  rewrite api_step_registry. destruct r as [q c mq|i|d|i]; try reflexivity.
  rewrite register_datasets_eq. destruct (String.eqb _ _) eqn:E.
  - apply String.eqb_eq in E. subst id. apply lookup_insert_eq.
  - apply String.eqb_neq in E. apply lookup_insert_ne. exact E.
Qed.

End ApiFacts.

(** ** Stored listings and their identifiers *)

Section EntryFacts.

Import DatasetRegistry RegistrySpec TraceSpec.

Lemma od_entry_get {V} (k : string) (v : V) (d : OrderedDict.t V) :
  List.NoDup (OrderedDict.keys d) ->
  In (k, v) d -> OrderedDict.get k d = Some v.
Proof.
  induction d as [|[k' v'] d IH]; cbn [OrderedDict.keys map fst In OrderedDict.get];
    [tauto|].
  intros Hnd Hin. apply List.NoDup_cons_iff in Hnd as [Hk' Hnd].
  destruct Hin as [[= -> ->]|Hin].
  - rewrite String.eqb_refl. reflexivity.
  - destruct (String.eqb k k') eqn:E.
    + apply String.eqb_eq in E. subst k'. exfalso. apply Hk'.
      apply in_map_iff. exists (k, v). split; [reflexivity|exact Hin].
    + apply IH; assumption.
Qed.

Lemma od_value_get {V} (v : V) (d : OrderedDict.t V) :
  List.NoDup (OrderedDict.keys d) ->
  In v (OrderedDict.values d) -> exists k, OrderedDict.get k d = Some v.
Proof.
  intros Hnd Hin. apply in_map_iff in Hin as ([k v'] & Hv & Hin).
  cbn in Hv. subst v'. exists k. apply od_entry_get; assumption.
Qed.

(** In a reachable registry the stored listings, read in order, carry the
    keys of the dict as the identifiers of their datasets. *)
Lemma reachable_values_ids self :
  reachable self ->
  map (fun l => AlignmentDataset.dataset_id (MarketplaceListing.dataset l))
    (OrderedDict.values (_listings self))
  = OrderedDict.keys (_listings self).
Proof.
  intros Hr. pose proof (reachable_keys_NoDup self Hr) as Hnd.
  pose proof (reachable_shape self Hr) as Hs.
  assert (H : forall k l, In (k, l) (_listings self) ->
                AlignmentDataset.dataset_id (MarketplaceListing.dataset l) = k).
  { intros k l Hin. apply (Hs k l). apply od_entry_get; assumption. }
  clear Hs Hnd Hr. induction (_listings self) as [|[k l] d IH]; [reflexivity|].
  cbn [OrderedDict.values OrderedDict.keys map fst snd].
  rewrite (H k l) by (left; reflexivity). f_equal.
  apply IH. intros k' l' Hin. apply H. right. exact Hin.
Qed.

Lemma NoDup_map_filter {A B} (f : A -> B) (p : A -> bool) (l : list A) :
  List.NoDup (map f l) -> List.NoDup (map f (List.filter p l)).
Proof.
  induction l as [|x l IH]; cbn [map List.filter]; [auto|].
  intros Hnd. apply List.NoDup_cons_iff in Hnd as [Hx Hnd].
  destruct (p x); [|apply IH, Hnd].
  cbn [map]. constructor; [|apply IH, Hnd].
  intros Hin. apply Hx. apply in_map_iff in Hin as (y & Hy & Hin).
  apply in_map_iff. exists y. split; [exact Hy|].
  apply filter_In in Hin. tauto.
Qed.

(** Whatever the requests, the registry behind the handlers holds only
    listings that were never downloaded. *)
Lemma api_run_downloads requests st :
  reachable (Session.registry st) ->
  (forall id l, OrderedDict.get id (_listings (Session.registry st)) = Some l ->
     MarketplaceListing.downloads l = 0%Z) ->
  forall id l,
    OrderedDict.get id (_listings (Session.registry (Api.run st requests))) = Some l ->
    MarketplaceListing.downloads l = 0%Z.
Proof.
  revert st. induction requests as [|r requests IH]; intros st Hr H0; [exact H0|].
  unfold Api.run in *. cbn [fold_left]. apply IH.
  - rewrite api_step_registry. destruct r as [q c mq|i|d|i]; try exact Hr.
    exact (reach_step _ (Register d) Hr).
  - rewrite api_step_registry. destruct r as [q c mq|i|d|i]; try exact H0.
    rewrite (register_valid _ d (reachable_valid _ Hr)). cbn [snd _listings].
    intros id l. destruct (String.eqb (AlignmentDataset.dataset_id d) id) eqn:E.
    + apply String.eqb_eq in E. subst id. rewrite od_get_set_eq. intros [= <-].
      destruct (OrderedDict.get _ (_listings (Session.registry st))) as [e|] eqn:Ee;
        [|reflexivity].
      cbn. exact (H0 _ e Ee).
    + apply String.eqb_neq in E. rewrite od_get_set_ne by exact E. apply H0.
Qed.

End EntryFacts.

(** ** The further properties *)

Section Further.

Import DatasetRegistry RegistrySpec SearchSpec EvaluationSpec TraceSpec.

(** X1.  In every reachable registry [increment_downloads] returns normally.
    For an identifier with a listing it adds exactly 1 to the downloads and
    keeps the listing's dataset, rating, reviews and position; for an unknown
    identifier it changes nothing.  Dataset records and the listings of other
    identifiers are never touched. *)
Theorem increment_downloads_effect self id :
  reachable self ->
  exists self',
    increment_downloads self id = (Ok tt, self')
    /\ _datasets self' = _datasets self
    /\ OrderedDict.keys (_listings self') = OrderedDict.keys (_listings self)
    /\ (forall id', id <> id' ->
          OrderedDict.get id' (_listings self') = OrderedDict.get id' (_listings self))
    /\ match OrderedDict.get id (_listings self) with
       | Some l =>
           OrderedDict.get id (_listings self')
           = Some (MarketplaceListing.mk (MarketplaceListing.dataset l)
                     (MarketplaceListing.downloads l + 1)
                     (MarketplaceListing.rating l) (MarketplaceListing.reviews l))
       | None => self' = self
       end.
Proof.
  intros Hr. pose proof (reachable_valid self Hr) as Hv.
  eexists. split; [apply (increment_valid self id Hv)|].
  destruct (OrderedDict.get id (_listings self)) as [l|] eqn:E.
  - cbn [_datasets _listings]. split; [reflexivity|]. split.
    + apply od_keys_set_mem. eauto.
    + split; [intros id' Hne; apply od_get_set_ne, Hne|apply od_get_set_eq].
  - repeat split; reflexivity.
Qed.

Lemma increment_downloads_effect_witness :
  reachable Examples.registry
  /\ exists self',
       increment_downloads Examples.registry "ds-001" = (Ok tt, self')
       /\ _datasets self' = _datasets Examples.registry
       /\ OrderedDict.keys (_listings self')
          = OrderedDict.keys (_listings Examples.registry)
       /\ (forall id', "ds-001" <> id' ->
             OrderedDict.get id' (_listings self')
             = OrderedDict.get id' (_listings Examples.registry))
       /\ match OrderedDict.get "ds-001" (_listings Examples.registry) with
          | Some l =>
              OrderedDict.get "ds-001" (_listings self')
              = Some (MarketplaceListing.mk (MarketplaceListing.dataset l)
                        (MarketplaceListing.downloads l + 1)
                        (MarketplaceListing.rating l) (MarketplaceListing.reviews l))
          | None => self' = Examples.registry
          end.
Proof.
  assert (Hr : reachable Examples.registry)
    by (repeat apply reach_step; apply reach_init).
  split; [exact Hr|].
  exact (increment_downloads_effect Examples.registry "ds-001" Hr).
Defined.

(** X2.  Starting from an empty registry, after any sequence of calls the
    downloads of an identifier are the number of [increment_downloads] calls
    made for it since its first registration: increments before that are
    lost, and registering it again does not reset the count.  An identifier
    never registered has no listing. *)
Theorem downloads_count_increments calls id :
  MarketplaceListing.downloads <$> OrderedDict.get id (_listings (run init calls))
  = downloads_after id None calls.
Proof. apply (run_downloads calls init id reach_init). Qed.

(** X3.  In every reachable registry, the listing stored under an identifier
    wraps a dataset with that identifier, its rating and its reviews are 0
    (no call ever changes them), and its downloads are not negative. *)
Theorem reachable_listing_shape self id l :
  reachable self ->
  OrderedDict.get id (_listings self) = Some l ->
  listing_shape id l.
Proof. intros Hr. apply reachable_shape, Hr. Qed.

Lemma reachable_listing_shape_witness :
  reachable Examples.downloaded
  /\ OrderedDict.get "ds-001" (_listings Examples.downloaded)
     = Some (MarketplaceListing.mk Examples.sample_dataset 1 0 0)
  /\ listing_shape "ds-001" (MarketplaceListing.mk Examples.sample_dataset 1 0 0).
Proof.
  assert (Hr : reachable Examples.downloaded)
    by (repeat apply reach_step; apply reach_init).
  assert (Hg : OrderedDict.get "ds-001" (_listings Examples.downloaded)
               = Some (MarketplaceListing.mk Examples.sample_dataset 1 0 0))
    by (vm_compute; reflexivity).
  split; [exact Hr|]. split; [exact Hg|].
  exact (reachable_listing_shape Examples.downloaded "ds-001" _ Hr Hg).
Defined.

(** X4.  Starting from an empty registry, the listings are kept in the order
    in which their identifiers were first registered, each identifier once:
    registering a known identifier again does not move its listing, and no
    other call changes the order. *)
Theorem listing_order_is_first_registration calls :
  OrderedDict.keys (_listings (run init calls)) = order_after [] calls
  /\ List.NoDup (OrderedDict.keys (_listings (run init calls))).
Proof.
  split.
  - apply (run_keys calls init reach_init).
  - apply reachable_keys_NoDup, run_reachable, reach_init.
Qed.

(** X5.  In every reachable registry, registering the same dataset a second
    time returns normally and changes nothing. *)
Theorem register_twice self d :
  reachable self ->
  register (snd (register self d)) d = (Ok tt, snd (register self d)).
Proof.
  intros Hr. pose proof (reachable_valid self Hr) as Hv.
  assert (Hv' : listings_valid (snd (register self d))).
  { apply (reachable_valid _ (reach_step self (Register d) Hr)). }
  rewrite (register_valid _ d Hv'). rewrite (register_valid self d Hv).
  cbn [snd _datasets _listings]. rewrite od_get_set_eq.
  cbn [MarketplaceListing.downloads MarketplaceListing.rating
       MarketplaceListing.reviews].
  rewrite insert_insert_eq.
  destruct (OrderedDict.get _ (_listings self)) as [e|];
    cbn [MarketplaceListing.downloads MarketplaceListing.rating
         MarketplaceListing.reviews]; rewrite od_set_set; reflexivity.
Qed.

Lemma register_twice_witness :
  reachable Examples.downloaded
  /\ register (snd (register Examples.downloaded Examples.sample_dataset_v2))
       Examples.sample_dataset_v2
     = (Ok tt, snd (register Examples.downloaded Examples.sample_dataset_v2)).
Proof.
  assert (Hr : reachable Examples.downloaded)
    by (repeat apply reach_step; apply reach_init).
  split; [exact Hr|].
  exact (register_twice Examples.downloaded Examples.sample_dataset_v2 Hr).
Defined.

(** X6.  No call removes or disturbs a dataset record: after any sequence of
    calls, [get(id)] answers the dataset of the last registration of [id] in
    the sequence if there is one, and otherwise exactly what it answered
    before the sequence, be it a dataset or the not-found error. *)
Theorem get_along_trace self calls id :
  get (run self calls) id
  = match last_registered id calls with
    | Some d => Ok d
    | None => get self id
    end.
Proof.
  unfold get. rewrite run_datasets.
  destruct (last_registered id calls); reflexivity.
Qed.

(** Two increments before the first registration are lost, two after it
    count, and the registration of a new payload in between resets
    nothing. *)
Example downloads_count_example :
  downloads_after "ds-001" None
    [IncrementDownloads "ds-001"; IncrementDownloads "ds-001";
     Register Examples.sample_dataset; IncrementDownloads "ds-001";
     Register Examples.sample_dataset_v2; IncrementDownloads "ds-002";
     IncrementDownloads "ds-001"]
  = Some 2%Z.
Proof. reflexivity. Qed.

(** X7.  The sort of [search] is stable: among the returned listings of
    one and the same quality score, the order is the order in which the
    registry stores them, that is, the order of first registration. *)
Theorem search_ties_in_listing_order self query category min_quality q :
  exists results,
    search self query category min_quality = Ok results
    /\ ties q results
       = ties q
           (List.filter
              (keepb (PyStr.strip (PyStr.lower query)) category min_quality)
              (OrderedDict.values (_listings self))).
Proof.
  eexists. split; [apply search_sorted_filter|]. apply ties_sort_desc.
Qed.

(** X8.  Narrowing a search gives the same answer as filtering the wider
    answer: for the same query, raising [min_quality] and adding a category
    (or keeping the one given) returns exactly the listings of the wider
    answer that pass the narrower quality and category filter, in the same
    relative order. *)
Theorem search_narrowing self query c1 mq1 c2 mq2 :
  float_le mq1 mq2 ->
  c1 = None \/ c1 = c2 ->
  exists wider,
    search self query c1 mq1 = Ok wider
    /\ search self query c2 mq2 = Ok (List.filter (passes c2 mq2) wider).
Proof.
  intros Hq Hc. eexists. split; [apply search_sorted_filter|].
  rewrite search_sorted_filter. f_equal.
  rewrite filter_sort_desc. f_equal. rewrite filter_filter_andb.
  apply filter_ext_bool. intros x. unfold keepb, passes.
  assert (Ha : PyFloat.flt (PyFloat.Finite (sort_key x)) mq2 = false ->
               PyFloat.flt (PyFloat.Finite (sort_key x)) mq1 = false).
  { apply flt_fle_mono, Hq. }
  destruct (PyFloat.flt (PyFloat.Finite (sort_key x)) mq2) eqn:A2.
  - cbn [negb andb]. rewrite andb_false_r. reflexivity.
  - rewrite (Ha eq_refl). cbn [negb].
    destruct Hc as [->| ->]; (destruct c2 as [c|]; [destruct (String.eqb _ _)|]);
      destruct (negb _ || _); reflexivity.
Qed.

Lemma search_narrowing_witness :
  float_le (PyFloat.Finite 0) (PyFloat.Finite (9 # 10))
  /\ ((None : option string) = None \/ None = Some "HELPFULNESS")
  /\ exists wider,
       search Examples.registry "eval" None (PyFloat.Finite 0) = Ok wider
       /\ search Examples.registry "eval" (Some "HELPFULNESS")
            (PyFloat.Finite (9 # 10))
          = Ok (List.filter
                  (passes (Some "HELPFULNESS") (PyFloat.Finite (9 # 10))) wider).
Proof.
  assert (Hq : float_le (PyFloat.Finite 0) (PyFloat.Finite (9 # 10)))
    by (vm_compute; reflexivity).
  assert (Hc : (None : option string) = None \/ None = Some "HELPFULNESS")
    by (left; reflexivity).
  split; [exact Hq|]. split; [exact Hc|].
  exact (search_narrowing Examples.registry "eval" None (PyFloat.Finite 0)
           (Some "HELPFULNESS") (PyFloat.Finite (9 # 10)) Hq Hc).
Defined.

(** X9.  Download counts play no part in searching: in every reachable
    registry, a search after [increment_downloads] returns listings of the
    same datasets in the same order as the search before it. *)
Theorem search_ignores_downloads self id query category min_quality :
  reachable self ->
  exists before after,
    search self query category min_quality = Ok before
    /\ search (snd (increment_downloads self id)) query category min_quality
       = Ok after
    /\ map MarketplaceListing.dataset after = map MarketplaceListing.dataset before.
Proof.
  intros Hr. pose proof (reachable_valid self Hr) as Hv.
  eexists. eexists. split; [apply search_sorted_filter|].
  split; [apply search_sorted_filter|].
  apply same_datasets_map, same_datasets_sort, same_datasets_filter.
  rewrite (increment_valid self id Hv). cbn [snd].
  destruct (OrderedDict.get id (_listings self)) as [l|] eqn:E;
    [|apply same_datasets_refl].
  cbn [_listings]. eapply same_datasets_set; [exact E|reflexivity].
Qed.

Lemma search_ignores_downloads_witness :
  reachable Examples.registry
  /\ exists before after,
       search Examples.registry "safety" None (PyFloat.Finite 0) = Ok before
       /\ search (snd (increment_downloads Examples.registry "ds-001"))
            "safety" None (PyFloat.Finite 0) = Ok after
       /\ map MarketplaceListing.dataset after
          = map MarketplaceListing.dataset before.
Proof.
  assert (Hr : reachable Examples.registry)
    by (repeat apply reach_step; apply reach_init).
  split; [exact Hr|].
  exact (search_ignores_downloads Examples.registry "ds-001" "safety" None
           (PyFloat.Finite 0) Hr).
Defined.

(** X10.  Whitespace around the query is ignored: a query with whitespace
    added in front and behind gets the answer of the query itself, and so a
    query of whitespace only gets the answer of the empty query. *)
Theorem search_ignores_outer_space self pre query post category min_quality :
  all_space pre = true ->
  all_space post = true ->
  search self (pre ++ query ++ post) category min_quality
  = search self query category min_quality.
Proof.
  intros Hpre Hpost. unfold search.
  rewrite !lower_app, strip_app_space; [reflexivity| |];
    rewrite all_space_lower; assumption.
Qed.

Lemma search_ignores_outer_space_witness :
  all_space "  " = true
  /\ all_space " " = true
  /\ search Examples.registry ("  " ++ "Safety Prompts" ++ " ") None (PyFloat.Finite 0)
     = search Examples.registry "Safety Prompts" None (PyFloat.Finite 0).
Proof.
  assert (H1 : all_space "  " = true) by reflexivity.
  assert (H2 : all_space " " = true) by reflexivity.
  split; [exact H1|]. split; [exact H2|].
  exact (search_ignores_outer_space Examples.registry "  " "Safety Prompts" " "
           None (PyFloat.Finite 0) H1 H2).
Defined.

(** X11.  When [evaluate] returns a result for a non-empty batch, the
    result's [min_score] and [max_score] are scores of the batch, no score of
    the batch lies below the one or above the other, and [sample_count] is
    the number of outputs. *)
Theorem evaluate_extremes registry self id outs name now r :
  fst (EvaluationRunner.evaluate registry self id outs name now) = Ok r ->
  outs <> [] ->
  exists mn mx,
    EvaluationResult.metrics r !! "min_score" = Some mn
    /\ EvaluationResult.metrics r !! "max_score" = Some mx
    /\ In (Ok mn) (map (EvaluationRunner._scoring_fn self) outs)
    /\ In (Ok mx) (map (EvaluationRunner._scoring_fn self) outs)
    /\ (forall s, In (Ok s) (map (EvaluationRunner._scoring_fn self) outs) ->
          float_le mn s /\ float_le s mx)
    /\ EvaluationResult.metrics r !! "sample_count"
       = Some (PyFloat.of_len (List.length outs)).
Proof.
  unfold EvaluationRunner.evaluate. rewrite evaluate_with_unfold.
  destruct (get registry id); [|discriminate].
  destruct (EvaluationRunner.score_all _ outs) as [scores|] eqn:Es;
    [|discriminate].
  destruct (EvaluationResult.create _ _ _ _ _) as [r'|] eqn:E; [|discriminate].
  cbn [fst]. intros [= <-] Hne.
  apply create_result in E as (q & Hq & -> & _).
  cbn [EvaluationResult.metrics].
  apply score_all_map in Es. rewrite Es.
  assert (Hlen : List.length scores = List.length outs).
  { rewrite <- (List.length_map (EvaluationRunner._scoring_fn self) outs).
    rewrite Es. symmetry. apply List.length_map. }
  assert (Hfin : all_finite scores).
  { apply rounded_mean_finite. rewrite Hq. reflexivity. }
  apply all_finite_map in Hfin as [qs ->].
  destruct qs as [|x qs].
  { destruct outs; [congruence|discriminate]. }
  destruct (min_list_spec qs x) as (mn & Hmn & Hmin & Hlb).
  destruct (max_list_spec qs x) as (mx & Hmx & Hmax & Hub).
  exists (PyFloat.Finite mn), (PyFloat.Finite mx).
  split.
  { unfold EvaluationRunner.metrics_of. cbn [map]. rewrite Hmn. reflexivity. }
  split.
  { unfold EvaluationRunner.metrics_of. cbn [map]. rewrite Hmx. reflexivity. }
  split; [apply In_map_Ok, in_map, Hmin|].
  split; [apply In_map_Ok, in_map, Hmax|]. split.
  - intros s Hs. apply In_map_Ok, in_map_iff in Hs as (y & <- & Hy).
    unfold float_le. cbn [PyFloat.fle]. unfold PyFloat.leb.
    rewrite !Qle_bool_iff. split; [apply Hlb, Hy|apply Hub, Hy].
  - unfold EvaluationRunner.metrics_of. rewrite lookup_insert_eq, Hlen.
    reflexivity.
Qed.

Lemma evaluate_extremes_witness :
  fst (EvaluationRunner.evaluate Examples.registry Examples.runner "ds-001"
         MoreExamples.half_pair "unknown" 0)
  = Ok MoreExamples.half_pair_result
  /\ MoreExamples.half_pair <> []
  /\ exists mn mx,
       EvaluationResult.metrics MoreExamples.half_pair_result !! "min_score"
       = Some mn
       /\ EvaluationResult.metrics MoreExamples.half_pair_result !! "max_score"
          = Some mx
       /\ In (Ok mn) (map (EvaluationRunner._scoring_fn Examples.runner)
                        MoreExamples.half_pair)
       /\ In (Ok mx) (map (EvaluationRunner._scoring_fn Examples.runner)
                        MoreExamples.half_pair)
       /\ (forall s,
             In (Ok s) (map (EvaluationRunner._scoring_fn Examples.runner)
                          MoreExamples.half_pair) ->
             float_le mn s /\ float_le s mx)
       /\ EvaluationResult.metrics MoreExamples.half_pair_result !! "sample_count"
          = Some (PyFloat.of_len (List.length MoreExamples.half_pair)).
Proof.
  assert (He : fst (EvaluationRunner.evaluate Examples.registry Examples.runner
                      "ds-001" MoreExamples.half_pair "unknown" 0)
               = Ok MoreExamples.half_pair_result)
    by (vm_compute; reflexivity).
  assert (Hn : MoreExamples.half_pair <> []) by discriminate.
  split; [exact He|]. split; [exact Hn|].
  exact (evaluate_extremes Examples.registry Examples.runner "ds-001"
           MoreExamples.half_pair "unknown" 0 _ He Hn).
Defined.

(** X13.  Through any sequence of requests to a freshly loaded API module,
    [get_dataset(id)] returns the dataset of the last POST for [id], and
    raises the 404 [HTTPException] with detail "Dataset '<id>' not found"
    when there was none; it never lets an exception of the core through. *)
Theorem api_get_dataset_along_requests requests id :
  Api.get_dataset (Api.run Api.init requests) id
  = match Api.last_posted id requests with
    | Some d => Api.Returned d
    | None => Api.Failed (Api.HTTPException 404 (Api.not_found_detail id))
    end.
Proof.
  unfold Api.get_dataset, get. rewrite api_run_datasets.
  destruct (Api.last_posted id requests); reflexivity.
Qed.

(** X14.  The API module has no handler that runs an evaluation: through
    any sequence of requests to a freshly loaded module, [get_evaluations(id)]
    returns the empty list for every identifier that was posted, and raises
    the 404 [HTTPException] for every other. *)
Theorem api_get_evaluations_always_empty requests id :
  Api.get_evaluations (Api.run Api.init requests) id
  = match Api.last_posted id requests with
    | Some _ => Api.Returned []
    | None => Api.Failed (Api.HTTPException 404 (Api.not_found_detail id))
    end.
Proof.
  unfold Api.get_evaluations, get. rewrite api_run_datasets, api_run_runner.
  destruct (Api.last_posted id requests); reflexivity.
Qed.

(** X15.  Through any sequence of requests to a freshly loaded API module,
    [register_dataset] returns the posted dataset and [list_datasets] returns
    a list: neither raises, so the only failure a handler produces is the 404
    of [get_dataset] and [get_evaluations]. *)
Theorem api_handlers_do_not_crash requests :
  (forall d,
     fst (Api.register_dataset (Api.run Api.init requests) d) = Api.Returned d)
  /\ (forall query category min_quality,
        exists listings,
          Api.list_datasets (Api.run Api.init requests) query category min_quality
          = Api.Returned listings).
Proof.
  split.
  - intros d. unfold Api.register_dataset. cbn [fst].
    assert (Hr : reachable (Session.registry (Api.run Api.init requests)))
      by (apply api_run_reachable, reach_init).
    rewrite (register_valid _ d (reachable_valid _ Hr)). reflexivity.
  - intros query category min_quality. unfold Api.list_datasets.
    rewrite search_sorted_filter. eexists. reflexivity.
Qed.

(** X16.  In every reachable registry, [search] returns at most one listing
    per dataset identifier. *)
Theorem search_distinct_ids self query category min_quality :
  reachable self ->
  exists results,
    search self query category min_quality = Ok results
    /\ List.NoDup
         (map (fun l => AlignmentDataset.dataset_id (MarketplaceListing.dataset l))
            results).
Proof.
  intros Hr. eexists. split; [apply search_sorted_filter|].
  eapply Permutation_NoDup.
  - apply Permutation_map. symmetry. apply sort_desc_perm.
  - apply NoDup_map_filter. rewrite (reachable_values_ids self Hr).
    apply reachable_keys_NoDup, Hr.
Qed.

Lemma search_distinct_ids_witness :
  reachable Examples.downloaded
  /\ exists results,
       search Examples.downloaded "" None (PyFloat.Finite 0) = Ok results
       /\ List.NoDup
            (map (fun l => AlignmentDataset.dataset_id (MarketplaceListing.dataset l))
               results).
Proof.
  assert (Hr : reachable Examples.downloaded)
    by (repeat apply reach_step; apply reach_init).
  split; [exact Hr|].
  exact (search_distinct_ids Examples.downloaded "" None (PyFloat.Finite 0) Hr).
Defined.

(** X17.  A registration is seen by the next search: in every reachable
    registry, after [register(d)] every listing that [search] returns for
    [d]'s identifier wraps [d] itself, never an earlier payload. *)
Theorem search_after_register self d query category min_quality :
  reachable self ->
  exists results,
    search (snd (register self d)) query category min_quality = Ok results
    /\ forall l,
         In l results ->
         AlignmentDataset.dataset_id (MarketplaceListing.dataset l)
         = AlignmentDataset.dataset_id d ->
         MarketplaceListing.dataset l = d.
Proof.
  intros Hr.
  assert (Hr' : reachable (snd (register self d)))
    by exact (reach_step self (Register d) Hr).
  eexists. split; [apply search_sorted_filter|].
  intros l Hin Hid.
  eapply Permutation_in in Hin; [|apply sort_desc_perm].
  apply filter_In in Hin as [Hin _].
  apply (od_value_get l _ (reachable_keys_NoDup _ Hr')) in Hin as [k Hk].
  destruct (reachable_shape _ Hr' k l Hk) as [Hkid _].
  rewrite Hid in Hkid. subst k.
  destruct (reachable_invariant _ Hr') as [Hp _].
  specialize (Hp (AlignmentDataset.dataset_id d)).
  rewrite Hk, register_datasets in Hp. cbn in Hp. congruence.
Qed.

Lemma search_after_register_witness :
  reachable Examples.downloaded
  /\ exists results,
       search (snd (register Examples.downloaded Examples.sample_dataset_v2))
         "revised" None (PyFloat.Finite 0) = Ok results
       /\ forall l,
            In l results ->
            AlignmentDataset.dataset_id (MarketplaceListing.dataset l)
            = AlignmentDataset.dataset_id Examples.sample_dataset_v2 ->
            MarketplaceListing.dataset l = Examples.sample_dataset_v2.
Proof.
  assert (Hr : reachable Examples.downloaded)
    by (repeat apply reach_step; apply reach_init).
  split; [exact Hr|].
  exact (search_after_register Examples.downloaded Examples.sample_dataset_v2
           "revised" None (PyFloat.Finite 0) Hr).
Defined.

(** X18.  The API module has no handler that counts a download: through any
    sequence of requests to a freshly loaded module, every listing that
    [list_datasets] returns has downloads 0, rating 0 and reviews 0. *)
Theorem api_listings_never_downloaded requests query category min_quality :
  exists listings,
    Api.list_datasets (Api.run Api.init requests) query category min_quality
    = Api.Returned listings
    /\ forall l,
         In l listings ->
         MarketplaceListing.downloads l = 0%Z
         /\ MarketplaceListing.rating l = 0%Q
         /\ MarketplaceListing.reviews l = 0%Z.
Proof.
  assert (Hr : reachable (Session.registry (Api.run Api.init requests)))
    by (apply api_run_reachable, reach_init).
  unfold Api.list_datasets. rewrite search_sorted_filter.
  eexists. split; [reflexivity|]. intros l Hin.
  eapply Permutation_in in Hin; [|apply sort_desc_perm].
  apply filter_In in Hin as [Hin _].
  apply (od_value_get l _ (reachable_keys_NoDup _ Hr)) in Hin as [k Hk].
  destruct (reachable_shape _ Hr k l Hk) as (_ & Hrat & Hrev & _).
  split; [|split; assumption].
  apply (api_run_downloads requests Api.init reach_init) with (id := k);
    [|exact Hk].
  intros id l' H. discriminate H.
Qed.

End Further.
